(** * CNPJ spreadsheet enrichment: a shallow embedding of app_consulta_cnpj.py

    The development follows the source file top to bottom: the Python
    built-ins the program leans on ([str.zfill], [str.replace], [str],
    truthiness, [in]), the JSON values that travel between the remote
    service, the cache and the spreadsheet, the class [CNPJCache], and the
    worker [CNPJProcessor] with its [run] loop and [fetch_cnpj_data].

    Effects are explicit.  A computation is a function from a [state] to a
    [result] and a new state; the state holds the file system, the log, the
    emitted Qt signals, the requests sent so far and the objects the worker
    owns (the cache dictionary, the data frame, the local [cnpj]).  What the
    program cannot decide by itself (the wall clock, the answers of the
    remote service, whether a path can be opened for writing, whether
    pandas accepts a value for a cell) is read from an [Oracle]. *)

From Stdlib Require Import ZArith String Ascii Bool Lia.
From Stdlib Require Import Floats.SpecFloat QArith Qround.
From stdpp Require Import base option gmap strings list pretty.

Open Scope string_scope.
Open Scope Z_scope.

(* stdpp freezes string concatenation under [simpl]; the proofs below
   compute with it. *)
#[local] Arguments String.append !_ _ / : simpl nomatch.

(** ** Python built-ins *)

Module Py.

(** [str.zfill(width)].  CPython pads on the left with ['0'] and then, when
    the original text starts with a sign, moves that sign in front of the
    padding. *)
Definition is_sign (c : ascii) : bool :=
  (Ascii.eqb c "+" || Ascii.eqb c "-")%bool.

Fixpoint zeros (n : nat) : string :=
  match n with
  | O => ""
  | S n' => String "0" (zeros n')
  end.

Definition zfill (s : string) (width : nat) : string :=
  if (width <=? String.length s)%nat then s
  else
    let fill := (width - String.length s)%nat in
    match s with
    | String c rest =>
        if is_sign c then String c (zeros fill ++ rest) else zeros fill ++ s
    | EmptyString => zeros fill
    end.

(** [s.replace(old, new)] for a non-empty [old]: every occurrence of [old],
    scanning from the left and never overlapping, is replaced.  [skip]
    counts the characters of a matched occurrence still to be passed. *)
Fixpoint replace_from (old new s : string) (skip : nat) : string :=
  match s with
  | EmptyString => ""
  | String c s' =>
      match skip with
      | S k => replace_from old new s' k
      | O =>
          if String.prefix old s
          then new ++ replace_from old new s' (String.length old - 1)
          else String c (replace_from old new s' 0)
      end
  end.

Definition replace (s old new : string) : string :=
  replace_from old new s 0.

(** [s.find(sub)]: where [sub] first occurs in [s]. *)
Fixpoint find (s sub : string) : option nat :=
  if String.prefix sub s then Some O
  else
    match s with
    | EmptyString => None
    | String _ rest => S <$> find rest sub
    end.

(** [needle in haystack] on two strings: substring test. *)
Fixpoint contains (haystack needle : string) : bool :=
  (String.prefix needle haystack
   || match haystack with
      | EmptyString => false
      | String _ rest => contains rest needle
      end)%bool.

End Py.

(** ** JSON values

    What [json.load] and [response.json()] return.  [JNull] is Python's
    [None].  A number is kept as an integer: the program never computes
    with a payload number, it only tests it for zero. *)

#[local] Unset Elimination Schemes.
Inductive json : Type :=
| JNull
| JBool (b : bool)
| JNum (n : Z)
| JStr (s : string)
| JArr (items : list json)
| JObj (members : list (string * json)).
#[local] Set Elimination Schemes.

(** Python truthiness, as [if data:] and [if not data:] see it. *)
Definition truthy (v : json) : bool :=
  match v with
  | JNull => false
  | JBool b => b
  | JNum n => negb (n =? 0)
  | JStr s => negb (String.eqb s "")
  | JArr items => match items with [] => false | _ => true end
  | JObj members => match members with [] => false | _ => true end
  end.

(** A dictionary keeps one value per key; in the member list the first
    binding of a key is the one that counts. *)
Fixpoint assoc (key : string) (members : list (string * json)) : option json :=
  match members with
  | [] => None
  | (k, v) :: rest => if String.eqb k key then Some v else assoc key rest
  end.

Definition is_str (key : string) (v : json) : bool :=
  match v with
  | JStr s => String.eqb s key
  | _ => false
  end.

(** ** Exceptions *)

Inductive exc_class : Type :=
| FileNotFoundError
| PermissionError
| UnicodeDecodeError
| JSONDecodeError
| KeyError
| TypeError
| ValueError
| UnboundLocalError
| ZeroDivisionError
| ConnectionError          (* requests.exceptions.ConnectionError, Timeout, ... *)
| HTTPError                (* requests.exceptions.HTTPError *)
| RequestsJSONDecodeError. (* requests.exceptions.JSONDecodeError *)

Record exn : Type := Exn { exc : exc_class; msg : string }.

(** [except requests.RequestException]: the classes of the requests
    library.  Its own JSONDecodeError derives from RequestException (through
    InvalidJSONError) as well as from json.JSONDecodeError. *)
Definition is_RequestException (c : exc_class) : bool :=
  match c with
  | ConnectionError | HTTPError | RequestsJSONDecodeError => true
  | _ => false
  end.

(** [except (FileNotFoundError, json.JSONDecodeError)]. *)
Definition is_missing_or_bad_json (c : exc_class) : bool :=
  match c with
  | FileNotFoundError | JSONDecodeError | RequestsJSONDecodeError => true
  | _ => false
  end.

(** [except Exception]: every class above. *)
Definition is_Exception (c : exc_class) : bool := true.

(** ** The spreadsheet as pandas presents it *)

(** A cell as [read_excel] delivers it and as [iterrows] hands it to the
    loop.  A float is carried as the text [str] prints for it. *)
Inductive xl : Type :=
| XNaN                     (* an empty cell *)
| XInt (n : Z)
| XFloat (text : string)
| XStr (s : string)
| XBool (b : bool).

(** A worksheet as it lies in a file: its header and its rows of cells.  A
    column without an entry in a row is empty there. *)
Record sheet : Type := Sheet {
  header : list string;
  lines : list (gmap string xl)
}.

(** A cell of the frame: as read, or overwritten with a payload value. *)
Inductive cell : Type :=
| Orig (x : xl)
| Written (v : json).

(** [str(value)] on a cell read from the sheet. *)
Definition py_str (x : xl) : string :=
  match x with
  | XNaN => "nan"
  | XInt n => pretty n
  | XFloat text => text
  | XStr s => s
  | XBool true => "True"
  | XBool false => "False"
  end.

(** A frame is its column labels and its rows, under the default
    [RangeIndex]: the label of a row is its position.  A row maps a column
    label to its cell; a column without an entry in a row holds NaN there,
    as in the column pandas adds when a new label is assigned. *)
Record DataFrame : Type := Frame {
  columns : list string;
  rows : list (gmap string cell)
}.

Definition has_column (d : DataFrame) (key : string) : bool :=
  bool_decide (key ∈ columns d).

Definition cell_at (d : DataFrame) (index : nat) (key : string) : option cell :=
  if has_column d key
  then row ← rows d !! index; Some (default (Orig XNaN) (row !! key))
  else None.

(** The effect of [df.at[index, key] = value] once pandas has accepted the
    value: the cell is overwritten when [key] is a column, and otherwise the
    frame is enlarged with a column [key], as [.loc] and [.at] do for a
    label that is missing. *)
Definition at_put (d : DataFrame) (index : nat) (key : string) (v : json) : DataFrame :=
  {| columns := if has_column d key then columns d else columns d ++ [key];
     rows := alter (fun row => <[key := Written v]> row) index (rows d) |}.

(** ** The outside world *)

(** What a file holds, as far as the program can tell. *)
Inductive content : Type :=
| Undecodable                                (* bytes the text codec rejects *)
| NotJson                                    (* text that is not a JSON document *)
| CacheDoc (entries : gmap string (json * Z)) (* what [save_cache] writes *)
| Workbook (sh : sheet).                     (* an .xlsx workbook *)

(** The answer to one HTTP GET. *)
Inductive body : Type :=
| BadBody                  (* [response.json()] cannot parse it *)
| JsonBody (v : json).

Inductive http_outcome : Type :=
| Transport (why : string)             (* [requests.get] raised *)
| Response (status_code : Z) (b : body).

Inductive level : Type := INFO | WARNING | ERROR.

(** The three Qt signals of [CNPJProcessor]. *)
Inductive signal : Type :=
| progress_updated (percent : Z)
| process_finished
| error_occurred (message : string).

(** Time is counted in microseconds, the resolution of [datetime]. *)
Definition days (n : Z) : Z := n * 86400 * 1000000.

Record Oracle : Type := {
  clock : nat -> Z;                      (* the k-th reading of [datetime.now()] *)
  network : nat -> string -> http_outcome; (* the answer to the k-th request *)
  writable : string -> bool;             (* can the path be opened for writing *)
  storable : DataFrame -> nat -> string -> json -> bool
                                         (* does pandas take the value for the cell *)
}.

Record state : Type := State {
  files : gmap string content;
  ticks : nat;                           (* readings of the clock so far *)
  requests : list string;                (* URLs requested so far, oldest first *)
  log : list (level * string);
  signals : list signal;
  cache : gmap string (json * Z);        (* [self.cache.cache] *)
  df : DataFrame;                        (* the frame [run] works on *)
  local_cnpj : option string             (* the local [cnpj]; [None] while unbound *)
}.

Definition set_files f (s : state) :=
  State f (ticks s) (requests s) (log s) (signals s) (cache s) (df s) (local_cnpj s).
Definition set_ticks t (s : state) :=
  State (files s) t (requests s) (log s) (signals s) (cache s) (df s) (local_cnpj s).
Definition set_requests r (s : state) :=
  State (files s) (ticks s) r (log s) (signals s) (cache s) (df s) (local_cnpj s).
Definition set_log l (s : state) :=
  State (files s) (ticks s) (requests s) l (signals s) (cache s) (df s) (local_cnpj s).
Definition set_signals g (s : state) :=
  State (files s) (ticks s) (requests s) (log s) g (cache s) (df s) (local_cnpj s).
Definition set_cache c (s : state) :=
  State (files s) (ticks s) (requests s) (log s) (signals s) c (df s) (local_cnpj s).
Definition set_df d (s : state) :=
  State (files s) (ticks s) (requests s) (log s) (signals s) (cache s) d (local_cnpj s).
Definition set_local_cnpj v (s : state) :=
  State (files s) (ticks s) (requests s) (log s) (signals s) (cache s) (df s) v.

(** ** Computations that may raise *)

Inductive result (A : Type) : Type :=
| Ok (a : A)
| Raise (e : exn).
Arguments Ok {A} a.
Arguments Raise {A} e.

Definition M (A : Type) : Type := state -> result A * state.

Definition ret {A} (a : A) : M A := fun s => (Ok a, s).

Definition raise {A} (c : exc_class) (m : string) : M A :=
  fun s => (Raise (Exn c m), s).

Definition bind {A B} (m : M A) (k : A -> M B) : M B :=
  fun s =>
    match m s with
    | (Ok a, s') => k a s'
    | (Raise e, s') => (Raise e, s')
    end.

(** [try: body except <classes> as e: handler(e)]. *)
Definition try_except {A} (body : M A) (classes : exc_class -> bool)
    (handler : exn -> M A) : M A :=
  fun s =>
    match body s with
    | (Ok a, s') => (Ok a, s')
    | (Raise e, s') => if classes (exc e) then handler e s' else (Raise e, s')
    end.

Definition get_state : M state := fun s => (Ok s, s).
Definition modify (f : state -> state) : M unit := fun s => (Ok tt, f s).

Declare Scope py_scope.
Delimit Scope py_scope with py.
Notation "'let*' x ':=' m 'in' k" := (bind m (fun x => k))
  (at level 10, x name, m at level 100, k at level 200) : py_scope.
Notation "'run*' m 'in' k" := (bind m (fun _ => k))
  (at level 10, m at level 100, k at level 200) : py_scope.
Open Scope py_scope.

Definition logging (lv : level) (text : string) : M unit :=
  modify (fun s => set_log (log s ++ [(lv, text)]) s).

Definition emit (g : signal) : M unit :=
  modify (fun s => set_signals (signals s ++ [g]) s).

(** ** Float arithmetic

    [int((index + 1) / total_rows * 100)] divides two ints into a float,
    multiplies the float by an int and truncates.  The three operations are
    kept behind an interface, with the order of the floats. *)

Record FloatOps : Type := {
  F : Type;
  fle : F -> F -> Prop;
  truediv : Z -> Z -> F;       (* [a / b] on ints, [b] not zero *)
  fmul : F -> Z -> F;          (* [x * k] with an int [k] *)
  trunc : F -> Z               (* [int(x)] *)
}.

(** What IEEE 754 promises of correctly rounded operations, as far as the
    progress computation needs it: rounding keeps the order, and a quotient
    of equal operands is exactly one. *)
Record FloatLaws (A : FloatOps) : Prop := {
  truediv_mono : forall a b n, a <= b -> 0 < n ->
    fle A (truediv A a n) (truediv A b n);
  fmul_mono : forall x y k, 0 <= k -> fle A x y -> fle A (fmul A x k) (fmul A y k);
  trunc_mono : forall x y, fle A x y -> trunc A x <= trunc A y;
  truediv_diag : forall n, 0 < n -> truediv A n n = truediv A 1 1;
  one_hundred : trunc A (fmul A (truediv A 1 1) 100) = 100
}.

(** Python's own floats: binary64, computed on the mantissa and exponent
    with round-to-nearest-even.  For ints below 2^53, which row counts
    are, [a / b] is the rounded quotient of the two converted ints. *)
Module Binary64.
Definition prec : Z := 53.
Definition emax : Z := 1024.

Definition of_int (z : Z) : spec_float := binary_normalize prec emax z 0 false.

Definition div (a b : Z) : spec_float := SFdiv prec emax (of_int a) (of_int b).

Definition mul (x : spec_float) (k : Z) : spec_float := SFmul prec emax x (of_int k).

Definition to_int (x : spec_float) : Z :=
  match x with
  | S754_finite sign m e =>
      let a := if 0 <=? e then Z.pos m * 2 ^ e else Z.pos m / 2 ^ (- e) in
      if sign then - a else a
  | _ => 0
  end.

Definition le (x y : spec_float) : Prop :=
  SFcompare x y = Some Lt \/ SFcompare x y = Some Eq.

Definition ops : FloatOps :=
  {| F := spec_float; fle := le; truediv := div; fmul := mul; trunc := to_int |}.
End Binary64.

(** Arithmetic without rounding, on fractions in lowest terms.  It obeys
    the same laws and serves to run the statements that assume them. *)
Module Exact.
Definition div (a b : Z) : Q := Qred (Qmake a (Z.to_pos b)).

Definition mul (x : Q) (k : Z) : Q := Qmult x (inject_Z k).

Definition to_int (x : Q) : Z :=
  if Qnum x <? 0 then Qceiling x else Qfloor x.

Definition ops : FloatOps :=
  {| F := Q; fle := Qle; truediv := div; fmul := mul; trunc := to_int |}.
End Exact.

(** * The program *)

(** [datetime.now()], in microseconds. *)
Definition now (E : Oracle) : M Z :=
  fun s => (Ok (clock E (ticks s)), set_ticks (S (ticks s)) s).

(** ** class CNPJCache *)

Module CNPJCache.
Section WithOracle.

Context (E : Oracle).

(** [open(self.cache_file, 'r')] followed by [json.load(f)].  A workbook is
    binary: read as text it does not decode. *)
Definition open_json (cache_file : string) : M (gmap string (json * Z)) :=
  let* s := get_state in
  match files s !! cache_file with
  | None => raise FileNotFoundError ("No such file or directory: " ++ cache_file)
  | Some Undecodable | Some (Workbook _) =>
      raise UnicodeDecodeError "codec can't decode byte"
  | Some NotJson => raise JSONDecodeError "Expecting value"
  | Some (CacheDoc entries) => ret entries
  end.

Definition load_cache (cache_file : string) : M (gmap string (json * Z)) :=
  try_except (open_json cache_file)
    is_missing_or_bad_json
    (fun _ => ret ∅).

(** [__init__]: [self.cache = self.load_cache()]. *)
Definition init (cache_file : string) : M unit :=
  let* loaded := load_cache cache_file in
  modify (set_cache loaded).

Definition save_cache (cache_file : string) : M unit :=
  let* s := get_state in
  if writable E cache_file
  then modify (set_files (<[cache_file := CacheDoc (cache s)]> (files s)))
  else raise PermissionError ("Permission denied: " ++ cache_file).

Definition get (cnpj : string) : M json :=
  let* s := get_state in
  match cache s !! cnpj with
  | Some (data, timestamp) =>
      let* t := now E in
      if t - timestamp <? days 30 then ret data else ret JNull
  | None => ret JNull
  end.

Definition set (cache_file cnpj : string) (data : json) : M unit :=
  let* t := now E in
  run* modify (fun s => set_cache (<[cnpj := (data, t)]> (cache s)) s) in
  save_cache cache_file.

End WithOracle.
End CNPJCache.

(** ** class CNPJProcessor *)

Module CNPJProcessor.
Section WithOracle.

Context (A : FloatOps) (E : Oracle).

(** The default of [CNPJCache.__init__], which the processor keeps. *)
Definition cache_file : string := "cnpj_cache.json".

(** [requests.get(url)]: the request is recorded, the oracle answers. *)
Definition requests_get (url : string) : M (Z * body) :=
  fun s =>
    let s' := set_requests (requests s ++ [url]) s in
    match network E (length (requests s)) url with
    | Transport why => (Raise (Exn ConnectionError why), s')
    | Response status_code b => (Ok (status_code, b), s')
    end.

(** [response.raise_for_status()] raises for the 4xx and 5xx codes. *)
Definition raise_for_status (status_code : Z) : M unit :=
  if ((400 <=? status_code) && (status_code <? 600))%bool
  then raise HTTPError (pretty status_code ++ " Error")
  else ret tt.

Definition response_json (b : body) : M json :=
  match b with
  | BadBody => raise RequestsJSONDecodeError "Expecting value"
  | JsonBody v => ret v
  end.

Definition url_of (cnpj : string) : string :=
  "https://www.receitaws.com.br/v1/cnpj/" ++ cnpj.

Definition fetch_cnpj_data (cnpj : string) : M json :=
  let url := url_of cnpj in
  try_except
    (let* response := requests_get url in
     run* raise_for_status (fst response) in
     response_json (snd response))
    is_RequestException
    (fun e =>
       run* logging ERROR ("Erro na requisição para CNPJ " ++ cnpj ++ ": " ++ msg e) in
       ret JNull).

(** [key in data]. *)
Definition py_in (key : string) (data : json) : M bool :=
  match data with
  | JObj members => ret (bool_decide (is_Some (assoc key members)))
  | JArr items => ret (existsb (is_str key) items)
  | JStr text => ret (Py.contains text key)
  | JNull | JBool _ | JNum _ => raise TypeError "argument is not iterable"
  end.

(** [data[key]] with a string [key]. *)
Definition py_getitem (data : json) (key : string) : M json :=
  match data with
  | JObj members =>
      match assoc key members with
      | Some v => ret v
      | None => raise KeyError key
      end
  | JArr _ | JStr _ => raise TypeError "indices must be integers"
  | JNull | JBool _ | JNum _ => raise TypeError "object is not subscriptable"
  end.

(** [df.at[index, key] = value]. *)
Definition at_set (index : nat) (key : string) (value : json) : M unit :=
  let* s := get_state in
  if storable E (df s) index key value
  then modify (set_df (at_put (df s) index key value))
  else raise ValueError "cannot set the value".

(** [for key in self.fields_to_update: if key in data: df.at[...] = data[key]]. *)
Fixpoint update_fields (index : nat) (data : json) (fields : list string) : M unit :=
  match fields with
  | [] => ret tt
  | key :: rest =>
      let* present := py_in key data in
      run* (if present : bool
            then let* value := py_getitem data key in at_set index key value
            else ret tt) in
      update_fields index data rest
  end.

(** [row['CNPJ']] on a row of [iterrows]: a series labelled by the header. *)
Definition row_getitem (hdr : list string) (row : gmap string xl) (key : string) : M xl :=
  if bool_decide (key ∈ hdr)
  then ret (default XNaN (row !! key))
  else raise KeyError key.

(** [str(value).zfill(14)]. *)
Definition canonical (raw : xl) : string := Py.zfill (py_str raw) 14.

(** The body of the inner [try]. *)
Definition row_body (fields_to_update : list string) (hdr : list string)
    (index : nat) (row : gmap string xl) : M unit :=
  let* raw := row_getitem hdr row "CNPJ" in
  let cnpj := canonical raw in
  run* modify (set_local_cnpj (Some cnpj)) in
  let* cached := CNPJCache.get E cnpj in
  let* data :=
    (if negb (truthy cached)
     then
       let* fetched := fetch_cnpj_data cnpj in
       run* (if truthy fetched then CNPJCache.set E cache_file cnpj fetched else ret tt) in
       ret fetched
     else ret cached) in
  if truthy data
  then
    run* update_fields index data fields_to_update in
    logging INFO ("CNPJ " ++ cnpj ++ " atualizado com sucesso.")
  else
    logging WARNING ("Não foi possível obter dados para o CNPJ " ++ cnpj ++ ".").

(** The inner [except Exception as e]: the message reads the local [cnpj],
    which is unbound until a row has got past its first statement. *)
Definition row_handler (e : exn) : M unit :=
  let* s := get_state in
  match local_cnpj s with
  | Some cnpj => logging ERROR ("Erro ao processar CNPJ " ++ cnpj ++ ": " ++ msg e)
  | None =>
      raise UnboundLocalError
        "cannot access local variable 'cnpj' where it is not associated with a value"
  end.

(** [int((index + 1) / total_rows * 100)]. *)
Definition percent (index total_rows : nat) : Z :=
  trunc A (fmul A (truediv A (Z.of_nat index + 1) (Z.of_nat total_rows)) 100).

Definition progress (index total_rows : nat) : M Z :=
  match total_rows with
  | O => raise ZeroDivisionError "division by zero"
  | S _ => ret (percent index total_rows)
  end.

(** [for index, row in df.iterrows()]: the rows are those the frame had
    when the loop started. *)
Fixpoint iterrows (fields_to_update hdr : list string) (total_rows index : nat)
    (pending : list (gmap string xl)) : M unit :=
  match pending with
  | [] => ret tt
  | row :: rest =>
      run* try_except (row_body fields_to_update hdr index row) is_Exception row_handler in
      let* p := progress index total_rows in
      run* emit (progress_updated p) in
      iterrows fields_to_update hdr total_rows (S index) rest
  end.

(** [pd.read_excel(path)]. *)
Definition read_excel (path : string) : M sheet :=
  let* s := get_state in
  match files s !! path with
  | None => raise FileNotFoundError ("No such file or directory: " ++ path)
  | Some (Workbook sh) => ret sh
  | Some _ => raise ValueError "Excel file format cannot be determined"
  end.

Definition frame_of (sh : sheet) : DataFrame :=
  {| columns := header sh;
     rows := fmap (M := list) (fmap (M := gmap string) Orig) (lines sh) |}.

(** What the Excel writers make of a cell; they refuse lists and dicts. *)
Definition excel_of (c : cell) : option xl :=
  match c with
  | Orig x => Some x
  | Written JNull => Some XNaN
  | Written (JBool b) => Some (XBool b)
  | Written (JNum n) => Some (XInt n)
  | Written (JStr s) => Some (XStr s)
  | Written (JArr _) | Written (JObj _) => None
  end.

Definition savable (d : DataFrame) : bool :=
  bool_decide (Forall (map_Forall (fun _ c => is_Some (excel_of c))) (rows d)).

Definition sheet_of (d : DataFrame) : sheet :=
  {| header := columns d;
     lines := fmap (M := list) (omap (M := gmap string) excel_of) (rows d) |}.

(** [df.to_excel(path, index=False)].  What a failed write leaves behind
    is not modelled. *)
Definition to_excel (path : string) : M unit :=
  let* s := get_state in
  if writable E path
  then
    if savable (df s)
    then modify (set_files (<[path := Workbook (sheet_of (df s))]> (files s)))
    else raise ValueError "Cannot convert the value to Excel"
  else raise PermissionError ("Permission denied: " ++ path).

Definition output_path (file_path : string) : string :=
  Py.replace file_path ".xlsx" "_atualizado.xlsx".

(** A call starts with its locals unbound. *)
Definition run (file_path : string) (fields_to_update : list string) : M unit :=
  run* modify (set_local_cnpj None) in
  try_except
    (let* sh := read_excel file_path in
     run* modify (set_df (frame_of sh)) in
     let total_rows := length (lines sh) in
     run* iterrows fields_to_update (header sh) total_rows 0 (lines sh) in
     let output_file := output_path file_path in
     run* to_excel output_file in
     run* logging INFO ("Processamento concluído. Arquivo salvo: " ++ output_file) in
     emit process_finished)
    is_Exception
    (fun e =>
       let error_msg := "Erro durante o processamento: " ++ msg e in
       run* logging ERROR error_msg in
       emit (error_occurred error_msg)).

End WithOracle.
End CNPJProcessor.

(** ** class MainWindow

    The window is a record of what its widgets show; a slot takes the
    window and returns it changed.  The worker runs in a thread of its
    own and its signals are queued to the thread of the window: the slots
    connected to them run, in the order of emission, once
    [start_processing] has returned. *)

Module MainWindow.

Record window : Type := Window {
  file_path : option string;                 (* [None] until a dialog has answered *)
  field_checkboxes : list (string * bool);   (* text and check state *)
  status_label : string;
  progress_bar : Z;
  process_button : bool;                     (* enabled *)
  file_button : bool                         (* enabled *)
}.

Definition set_file_path v (w : window) :=
  Window v (field_checkboxes w) (status_label w) (progress_bar w)
    (process_button w) (file_button w).
Definition set_field_checkboxes v (w : window) :=
  Window (file_path w) v (status_label w) (progress_bar w)
    (process_button w) (file_button w).
Definition set_status_label v (w : window) :=
  Window (file_path w) (field_checkboxes w) v (progress_bar w)
    (process_button w) (file_button w).
Definition set_progress_bar v (w : window) :=
  Window (file_path w) (field_checkboxes w) (status_label w) v
    (process_button w) (file_button w).
Definition set_process_button v (w : window) :=
  Window (file_path w) (field_checkboxes w) (status_label w) (progress_bar w)
    v (file_button w).
Definition set_file_button v (w : window) :=
  Window (file_path w) (field_checkboxes w) (status_label w) (progress_bar w)
    (process_button w) v.

(** [__init__]: no file, no check box, the process button disabled, and a
    progress bar that has not been given a value. *)
Definition init : window :=
  {| file_path := None;
     field_checkboxes := [];
     status_label := "Nenhum arquivo selecionado";
     progress_bar := -1;
     process_button := false;
     file_button := true |}.

(** [pd.read_excel(self.file_path)]. *)
Definition read_selected (w : window) : M sheet :=
  match file_path w with
  | Some path => CNPJProcessor.read_excel path
  | None => raise ValueError "Invalid file path or buffer object type: <class 'NoneType'>"
  end.

Definition load_fields (w : window) : M window :=
  try_except
    (let* sheet_read := read_selected w in
     let fields := header sheet_read in
     ret (set_process_button true
            (set_field_checkboxes (map (fun field => (field, false)) fields) w)))
    is_Exception
    (fun e =>
       let text := "Erro ao carregar arquivo: " ++ msg e in
       run* logging ERROR text in
       ret (set_status_label text w)).

(** [select_file], with the path the dialog returned: the empty string
    when the dialog was cancelled. *)
Definition select_file (chosen : string) (w : window) : M window :=
  let w1 := set_file_path (Some chosen) w in
  if negb (String.eqb chosen "")
  then load_fields (set_status_label ("Arquivo selecionado: " ++ chosen) w1)
  else ret w1.

(** The user clicks the check box at [position]. *)
Definition toggle (position : nat) (w : window) : window :=
  set_field_checkboxes
    (alter (fun box => (fst box, negb (snd box))) position (field_checkboxes w)) w.

(** [[cb.text() for cb in self.field_checkboxes if cb.isChecked()]]. *)
Definition selected_fields (w : window) : list string :=
  map fst (filter (fun box => snd box = true) (field_checkboxes w)).

Section WithOracle.

Context (A : FloatOps) (E : Oracle).

(** [CNPJProcessor.__init__]: [self.cache = CNPJCache()]. *)
Definition new_processor : M unit :=
  CNPJCache.init CNPJProcessor.cache_file.

(** The thread of the worker.  Without a path [read_excel] raises inside
    [run], whose outer handler reports it. *)
Definition worker (path : option string) (fields_to_update : list string) : M unit :=
  match path with
  | Some file => CNPJProcessor.run A E file fields_to_update
  | None =>
      run* modify (set_local_cnpj None) in
      let error_msg :=
        "Erro durante o processamento: "
        ++ "Invalid file path or buffer object type: <class 'NoneType'>" in
      run* logging ERROR error_msg in
      emit (error_occurred error_msg)
  end.

Definition start_processing (w : window) : M window :=
  match selected_fields w with
  | [] =>
      ret (set_status_label "Por favor, selecione pelo menos um campo para atualizar." w)
  | selected =>
      run* new_processor in
      run* worker (file_path w) selected in
      ret (set_file_button false (set_process_button false w))
  end.

End WithOracle.

(** [QProgressBar.setValue]: a value outside 0..100 is ignored. *)
Definition update_progress (value : Z) (w : window) : window :=
  if ((0 <=? value) && (value <=? 100))%bool then set_progress_bar value w else w.

Definition process_completed (w : window) : window :=
  set_file_button true
    (set_process_button true (set_status_label "Processamento concluído!" w)).

Definition show_error (error_msg : string) (w : window) : window :=
  set_file_button true
    (set_process_button true (set_status_label ("Erro: " ++ error_msg) w)).

(** The slot each signal is connected to. *)
Definition deliver (w : window) (g : signal) : window :=
  match g with
  | progress_updated value => update_progress value w
  | process_finished => process_completed w
  | error_occurred error_msg => show_error error_msg w
  end.

(** A click on the process button, followed to the end: a disabled button
    does not answer; otherwise the slot runs, then the event loop delivers
    what the worker has emitted. *)
Definition click_process (A : FloatOps) (E : Oracle) (w : window) : M window :=
  fun s =>
    if process_button w
    then
      match start_processing A E w s with
      | (Ok w1, s1) =>
          (Ok (fold_left deliver (drop (length (signals s)) (signals s1)) w1), s1)
      | (Raise e, s1) => (Raise e, s1)
      end
    else (Ok w, s).

(** A click on the file button, with the answer of the dialog. *)
Definition click_file (chosen : string) (w : window) : M window :=
  if file_button w then select_file chosen w else ret w.

End MainWindow.

(** * Concrete inputs

    The worlds and sheets the examples below run the program on. *)

Module Scenario.

(** A payload as the service answers for a known company. *)
Definition acme : json := JObj [("nome", JStr "Acme")].

(** The clock stands still at day 100; every file can be written; pandas
    takes every value; the service is out of reach. *)
Definition offline : Oracle :=
  {| clock := fun _ => days 100;
     network := fun _ _ => Transport "Connection refused";
     writable := fun _ => true;
     storable := fun _ _ _ _ => true |}.

(** The same world with a service that answers every request alike. *)
Definition answering (reply : http_outcome) : Oracle :=
  {| clock := clock offline;
     network := fun _ _ => reply;
     writable := writable offline;
     storable := storable offline |}.

Definition blank : state :=
  {| files := ∅; ticks := 0; requests := []; log := []; signals := [];
     cache := ∅; df := Frame [] []; local_cnpj := None |}.

Definition with_file (path : string) (c : content) : state :=
  set_files {[ path := c ]} blank.

(** The sheet of the end-to-end example of the specification: a cached
    company, an empty identifier and a company only the service knows. *)
Definition three_rows : sheet :=
  {| header := ["CNPJ"; "nome"];
     lines := [ {[ "CNPJ" := XStr "11222333000181"; "nome" := XStr "?" ]};
                {[ "CNPJ" := XStr ""; "nome" := XStr "?" ]};
                {[ "CNPJ" := XInt 44555666000199; "nome" := XStr "?" ]} ] |}.

(** A service that knows one company and answers 404 for the rest. *)
Definition beta_service : Oracle :=
  {| clock := clock offline;
     network := fun _ url =>
       if String.eqb url "https://www.receitaws.com.br/v1/cnpj/44555666000199"
       then Response 200 (JsonBody (JObj [("nome", JStr "Beta")]))
       else Response 404 BadBody;
     writable := writable offline;
     storable := storable offline |}.

Definition end_to_end : state :=
  set_cache {[ "11222333000181" := (acme, days 100) ]}
    (with_file "/dados/empresas.xlsx" (Workbook three_rows)).

(** A sheet whose only column is the identifier. *)
Definition one_column : sheet :=
  {| header := ["CNPJ"];
     lines := [ {[ "CNPJ" := XStr "11222333000181" ]} ] |}.

(** A sheet without the identifier column. *)
Definition no_cnpj_column : sheet :=
  {| header := ["empresa"];
     lines := [ {[ "empresa" := XStr "Acme" ]} ] |}.

(** A cache file left with an empty payload for an identifier, read the
    same day. *)
Definition empty_payload_cached : state :=
  set_cache {[ "11222333000181" := (JObj [], days 100) ]} blank.

End Scenario.

(** Worlds and windows for the examples of the wider properties. *)
Module Session.

(** A world whose cache file cannot be written and whose service knows the
    company. *)
Definition read_only_cache : Oracle :=
  {| clock := clock Scenario.offline;
     network := fun _ _ => Response 200 (JsonBody Scenario.acme);
     writable := fun path => negb (String.eqb path "cnpj_cache.json");
     storable := storable Scenario.offline |}.

(** The window after the sheet of the example has been chosen and the box
    of [nome] checked. *)
Definition nome_checked : MainWindow.window :=
  {| MainWindow.file_path := Some "/dados/empresas.xlsx";
     MainWindow.field_checkboxes := [("CNPJ", false); ("nome", true)];
     MainWindow.status_label := "Arquivo selecionado: /dados/empresas.xlsx";
     MainWindow.progress_bar := -1;
     MainWindow.process_button := true;
     MainWindow.file_button := true |}.

End Session.

(** * Vocabulary of the statements *)

(** The lookup URL of a row of the sheet. *)
Definition row_url (row : gmap string xl) : string :=
  CNPJProcessor.url_of (CNPJProcessor.canonical (default XNaN (row !! "CNPJ"))).

(** The line a row logs when no data could be had for it. *)
Definition warning_of (row : gmap string xl) : level * string :=
  (WARNING,
   "Não foi possível obter dados para o CNPJ "
   ++ CNPJProcessor.canonical (default XNaN (row !! "CNPJ")) ++ ".").

(** An answer of the service from which [fetch_cnpj_data] brings back
    nothing to use: a failure, or a body that is falsy. *)
Definition unanswered (reply : http_outcome) : bool :=
  match reply with
  | Transport _ => true
  | Response status_code b =>
      ((400 <=? status_code) && (status_code <? 600)
       || match b with BadBody => true | JsonBody v => negb (truthy v) end)%bool
  end.

(** A leading sign, which [zfill] keeps in front, and what follows it. *)
Definition split_sign (s : string) : string * string :=
  match s with
  | String c rest => if Py.is_sign c then (String c "", rest) else ("", s)
  | EmptyString => ("", "")
  end.

(** A property of the state that a computation hands on, however it ends. *)
Definition preserves {A} (I : state -> Prop) (m : M A) : Prop :=
  forall s r s', I s -> m s = (r, s') -> I s'.

(** The state the outer handler of [run] leaves: the message is logged
    and sent with [error_occurred]. *)
Definition failed (e : exn) (s : state) : state :=
  let error_msg := "Erro durante o processamento: " ++ msg e in
  set_signals (signals (set_log (log s ++ [(ERROR, error_msg)]) s)
               ++ [error_occurred error_msg])
    (set_log (log s ++ [(ERROR, error_msg)]) s).

(** The state a run that got through leaves: the workbook is written,
    the path logged, [process_finished] sent. *)
Definition completed (output_file : string) (s : state) : state :=
  let written :=
    set_files (<[output_file := Workbook (CNPJProcessor.sheet_of (df s))]> (files s)) s in
  let logged :=
    set_log (log written
             ++ [(INFO, "Processamento concluído. Arquivo salvo: " ++ output_file)])
      written in
  set_signals (signals logged ++ [process_finished]) logged.

(** The first [k] percentages of a run over [n] rows. *)
Definition percentages (A : FloatOps) (n k : nat) : list Z :=
  map (fun index => CNPJProcessor.percent A index n) (seq 0 k).

Definition non_decreasing (l : list Z) : Prop :=
  forall i j a b, (i <= j)%nat -> l !! i = Some a -> l !! j = Some b -> a <= b.

(** The header of the workbook a path holds. *)
Definition saved_header (s : state) (path : string) : option (list string) :=
  match files s !! path with
  | Some (Workbook sh) => Some (header sh)
  | _ => None
  end.

(** Closes the side conditions of the [preserves] lemmas for a property
    that reads fields the step does not write. *)
Ltac blind :=
  first [ solve [intros; simpl in *; intuition congruence]
        | solve [apply Forall_forall; intros; exact Logic.I] ].

(** * Properties *)

Lemma append_empty (s : string) : s ++ "" = s.
Proof. induction s; simpl; congruence. Qed.

(** ** Canonical identifiers *)

Section Zfill.

Import Py.

Lemma split_sign_join s : fst (split_sign s) ++ snd (split_sign s) = s.
Proof.
  destruct s as [|c rest]; [reflexivity|].
  unfold split_sign. destruct (is_sign c); reflexivity.
Qed.

Lemma zfill_split s width :
  zfill s width
  = fst (split_sign s) ++ zeros (width - String.length s) ++ snd (split_sign s).
Proof.
  unfold zfill.
  destruct (Nat.leb_spec width (String.length s)) as [Hle|Hlt].
  - replace (width - String.length s)%nat with O by lia.
    simpl. symmetry. apply split_sign_join.
  - destruct s as [|c rest]; simpl.
    + rewrite Nat.sub_0_r, append_empty. reflexivity.
    + destruct (is_sign c); reflexivity.
Qed.

Lemma zfill_long s width :
  (width <= String.length s)%nat -> zfill s width = s.
Proof.
  intros H. unfold zfill.
  destruct (Nat.leb_spec width (String.length s)); [reflexivity|lia].
Qed.

Lemma zfill_unsigned s width :
  fst (split_sign s) = "" ->
  zfill s width = zeros (width - String.length s) ++ s.
Proof.
  intros H. rewrite zfill_split, H. simpl.
  pose proof (split_sign_join s) as J. rewrite H in J. simpl in J.
  rewrite J. reflexivity.
Qed.

End Zfill.

(** C8, as amended.  The canonical identifier of a cell is the text [str]
    gives for it, with zeros added up to width 14.  The text is kept whole
    and in order: the zeros go in front of it, or right after its first
    character when that is a sign; a text without a leading sign is padded
    on the left and nothing else.  ["1234"] becomes ["00000000001234"], and
    a text of 14 characters or more is returned as it is. *)
Theorem canonical_pads (raw : xl) :
  let s := py_str raw in
  CNPJProcessor.canonical raw
  = fst (split_sign s) ++ Py.zeros (14 - String.length s) ++ snd (split_sign s)
  /\ fst (split_sign s) ++ snd (split_sign s) = s
  /\ (fst (split_sign s) = "" \/ fst (split_sign s) = "+" \/ fst (split_sign s) = "-")
  /\ (fst (split_sign s) = "" ->
      CNPJProcessor.canonical raw = Py.zeros (14 - String.length s) ++ s)
  /\ ((14 <= String.length s)%nat -> CNPJProcessor.canonical raw = s)
  /\ CNPJProcessor.canonical (XStr "1234") = "00000000001234".
Proof.
  intros s. unfold CNPJProcessor.canonical. fold s.
  split; [apply zfill_split|].
  split; [apply split_sign_join|].
  split.
  - destruct s as [|c rest]; [left; reflexivity|].
    unfold split_sign, Py.is_sign.
    destruct (Ascii.eqb_spec c "+") as [->|]; [right; left; reflexivity|].
    destruct (Ascii.eqb_spec c "-") as [->|]; [right; right; reflexivity|].
    left; reflexivity.
  - split; [apply zfill_unsigned|].
    split; [apply zfill_long|reflexivity].
Qed.

(** C8, as the claim has it: padding purely on the left fails for a
    negative number, whose sign stays in front of the zeros. *)
Lemma canonical_not_left_padding :
  CNPJProcessor.canonical (XInt (-1234)) = "-0000000001234"
  /\ Py.zeros (14 - String.length (py_str (XInt (-1234)))) ++ py_str (XInt (-1234))
     = "000000000-1234".
Proof. split; vm_compute; reflexivity. Qed.

(** ** The cache *)

Section Cache.

Context (E : Oracle).

(** C5.  [get] answers with the stored payload exactly when the identifier
    has an entry and the clock reads less than 30 days past its timestamp;
    in every other case it answers [None], a stale entry included.  An entry
    recorded at [T] is served at [T] plus 29 days and withheld at [T] plus
    31 days.  The dictionary and the files are left as they were, so a
    stale entry stays where it is. *)
Theorem get_serves_fresh_entries_only (cnpj : string) (s : state) :
  exists v s',
    CNPJCache.get E cnpj s = (Ok v, s')
    /\ cache s' = cache s
    /\ files s' = files s
    /\ (forall data T, cache s !! cnpj = Some (data, T) ->
          (clock E (ticks s) - T < days 30 -> v = data)
          /\ (days 30 <= clock E (ticks s) - T -> v = JNull)
          /\ (clock E (ticks s) = T + days 29 -> v = data)
          /\ (clock E (ticks s) = T + days 31 -> v = JNull))
    /\ (cache s !! cnpj = None -> v = JNull).
Proof.
  unfold CNPJCache.get, bind, get_state, now, ret.
  destruct (cache s !! cnpj) as [[data T]|] eqn:Hentry; simpl.
  - destruct (Z.ltb_spec (clock E (ticks s) - T) (days 30)) as [Hfresh|Hstale];
      eexists _, _; (split; [reflexivity|]);
      (split; [reflexivity|]); (split; [reflexivity|]);
      (split; [|discriminate]);
      intros d T' [= <- <-]; unfold days in *;
      (split; [|split; [|split]]); intros; first [reflexivity | lia].
  - exists JNull, s.
    split; [reflexivity|]. split; [reflexivity|]. split; [reflexivity|].
    split; [discriminate|reflexivity].
Qed.

End Cache.

(** C5 at work: an entry of day 0 read on day 29 and on day 31. *)
Lemma get_at_29_and_31_days :
  let s := set_cache {[ "00000000001234" := (Scenario.acme, 0) ]} Scenario.blank in
  let on_day d : Oracle :=
    {| clock := fun _ => days d; network := network Scenario.offline;
       writable := writable Scenario.offline; storable := storable Scenario.offline |} in
  fst (CNPJCache.get (on_day 29) "00000000001234" s) = Ok Scenario.acme
  /\ fst (CNPJCache.get (on_day 31) "00000000001234" s) = Ok JNull
  /\ cache (snd (CNPJCache.get (on_day 31) "00000000001234" s)) = cache s.
Proof. repeat split; vm_compute; reflexivity. Qed.

Section CacheFile.

Context (E : Oracle).

(** Loading gives the empty dictionary for a missing file and for text
    that is not JSON, and what the file holds for a saved cache. *)
Lemma load_cache_missing path s :
  files s !! path = None -> CNPJCache.load_cache path s = (Ok ∅, s).
Proof.
  intros H. unfold CNPJCache.load_cache, try_except, CNPJCache.open_json, bind, get_state.
  rewrite H. reflexivity.
Qed.

Lemma load_cache_not_json path s :
  files s !! path = Some NotJson -> CNPJCache.load_cache path s = (Ok ∅, s).
Proof.
  intros H. unfold CNPJCache.load_cache, try_except, CNPJCache.open_json, bind, get_state.
  rewrite H. reflexivity.
Qed.

Lemma set_persists path cnpj data s :
  writable E path = true ->
  CNPJCache.set E path cnpj data s
  = (Ok tt,
     set_files (<[path := CacheDoc (<[cnpj := (data, clock E (ticks s))]> (cache s))]> (files s))
       (set_cache (<[cnpj := (data, clock E (ticks s))]> (cache s))
          (set_ticks (S (ticks s)) s))).
Proof.
  intros H. unfold CNPJCache.set, CNPJCache.save_cache, bind, now, modify, get_state.
  simpl. rewrite H. reflexivity.
Qed.


End CacheFile.



(** ** The remote lookup *)

Section Fetch.

Context (E : Oracle).


End Fetch.


(** ** Running a sequence *)

Lemma bind_ok {A B} (m : M A) (k : A -> M B) s a s1 :
  m s = (Ok a, s1) -> bind m k s = k a s1.
Proof. intros H. unfold bind. rewrite H. reflexivity. Qed.

Lemma bind_raise {A B} (m : M A) (k : A -> M B) s e s1 :
  m s = (Raise e, s1) -> bind m k s = (Raise e, s1).
Proof. intros H. unfold bind. rewrite H. reflexivity. Qed.

(** ** What a computation leaves alone *)

Section Preserves.

Context (I : state -> Prop).

Lemma preserves_ret {A} (a : A) : preserves I (ret a).
Proof. intros s r s' HI [= <- <-]. exact HI. Qed.

Lemma preserves_raise {A} c m : preserves I (@raise A c m).
Proof. intros s r s' HI [= <- <-]. exact HI. Qed.

Lemma preserves_get_state : preserves I get_state.
Proof. intros s r s' HI [= <- <-]. exact HI. Qed.

Lemma preserves_modify f :
  (forall s, I s -> I (f s)) -> preserves I (modify f).
Proof. intros Hf s r s' HI [= <- <-]. apply Hf, HI. Qed.

Lemma preserves_bind {A B} (m : M A) (k : A -> M B) :
  preserves I m -> (forall a, preserves I (k a)) -> preserves I (bind m k).
Proof.
  intros Hm Hk s r s' HI. unfold bind.
  destruct (m s) as [[a|e] s1] eqn:Hrun.
  - intros Hrest. exact (Hk a s1 r s' (Hm _ _ _ HI Hrun) Hrest).
  - intros [= <- <-]. exact (Hm _ _ _ HI Hrun).
Qed.

Lemma preserves_try_except {A} (body : M A) classes handler :
  preserves I body -> (forall e, preserves I (handler e)) ->
  preserves I (try_except body classes handler).
Proof.
  intros Hb Hh s r s' HI. unfold try_except.
  destruct (body s) as [[a|e] s1] eqn:Hrun.
  - intros [= <- <-]. exact (Hb _ _ _ HI Hrun).
  - destruct (classes (exc e)).
    + intros Hrest. exact (Hh e s1 r s' (Hb _ _ _ HI Hrun) Hrest).
    + intros [= <- <-]. exact (Hb _ _ _ HI Hrun).
Qed.

(** The fields of the state, one hypothesis each: [I] does not look at it. *)
Hypothesis blind_to_ticks : forall v s, I s -> I (set_ticks v s).
Hypothesis blind_to_requests : forall v s, I s -> I (set_requests v s).
Hypothesis blind_to_log : forall v s, I s -> I (set_log v s).
Hypothesis blind_to_files : forall v s, I s -> I (set_files v s).
Hypothesis blind_to_cache : forall v s, I s -> I (set_cache v s).
Hypothesis blind_to_local : forall v s, I s -> I (set_local_cnpj v s).
Hypothesis blind_to_signals : forall v s, I s -> I (set_signals v s).

Context (E : Oracle).

Lemma preserves_logging lv text : preserves I (logging lv text).
Proof. apply preserves_modify. intros s. apply blind_to_log. Qed.

Lemma preserves_emit g : preserves I (emit g).
Proof. apply preserves_modify. intros s. apply blind_to_signals. Qed.

Lemma preserves_now : preserves I (now E).
Proof. intros s r s' HI [= <- <-]. apply blind_to_ticks, HI. Qed.

Lemma preserves_get cnpj : preserves I (CNPJCache.get E cnpj).
Proof.
  unfold CNPJCache.get.
  apply preserves_bind; [apply preserves_get_state|]. intros s.
  destruct (cache s !! cnpj) as [[data timestamp]|]; [|apply preserves_ret].
  apply preserves_bind; [apply preserves_now|]. intros t.
  destruct (t - timestamp <? days 30); apply preserves_ret.
Qed.

Lemma preserves_save_cache path : preserves I (CNPJCache.save_cache E path).
Proof.
  unfold CNPJCache.save_cache.
  apply preserves_bind; [apply preserves_get_state|]. intros s.
  destruct (writable E path); [|apply preserves_raise].
  apply preserves_modify. intros s0. apply blind_to_files.
Qed.

Lemma preserves_set path cnpj data : preserves I (CNPJCache.set E path cnpj data).
Proof.
  unfold CNPJCache.set.
  apply preserves_bind; [apply preserves_now|]. intros t.
  apply preserves_bind; [|intros; apply preserves_save_cache].
  apply preserves_modify. intros s. apply blind_to_cache.
Qed.

Lemma preserves_fetch cnpj : preserves I (CNPJProcessor.fetch_cnpj_data E cnpj).
Proof.
  unfold CNPJProcessor.fetch_cnpj_data.
  apply preserves_try_except.
  - apply preserves_bind.
    + intros s r s' HI. unfold CNPJProcessor.requests_get.
      destruct (network E _ _); intros [= <- <-]; apply blind_to_requests, HI.
    + intros [status_code b].
      apply preserves_bind.
      * unfold CNPJProcessor.raise_for_status.
        destruct (_ && _)%bool; [apply preserves_raise|apply preserves_ret].
      * intros _. destruct b; [apply preserves_raise|apply preserves_ret].
  - intros e. apply preserves_bind; [apply preserves_logging|].
    intros _. apply preserves_ret.
Qed.

Lemma preserves_py_in key data : preserves I (CNPJProcessor.py_in key data).
Proof. destruct data; first [apply preserves_ret | apply preserves_raise]. Qed.

Lemma preserves_py_getitem data key : preserves I (CNPJProcessor.py_getitem data key).
Proof.
  destruct data; simpl; try apply preserves_raise.
  destruct (assoc key members); [apply preserves_ret|apply preserves_raise].
Qed.

Lemma preserves_row_handler e : preserves I (CNPJProcessor.row_handler e).
Proof.
  unfold CNPJProcessor.row_handler.
  apply preserves_bind; [apply preserves_get_state|]. intros s.
  destruct (local_cnpj s); [apply preserves_logging|apply preserves_raise].
Qed.

(** Writing a cell is the one step that touches the frame: [I] has to
    survive it for the keys that may be written. *)
Context (K : string -> Prop).
Hypothesis survives_at_put : forall index key v s,
  K key -> I s -> I (set_df (at_put (df s) index key v) s).

Lemma preserves_at_set index key v :
  K key -> preserves I (CNPJProcessor.at_set E index key v).
Proof.
  intros HK. unfold CNPJProcessor.at_set.
  intros s r s' HI. unfold bind, get_state.
  destruct (storable E (df s) index key v); intros [= <- <-];
    [apply survives_at_put; assumption | exact HI].
Qed.

Lemma preserves_update_fields index data fields :
  Forall K fields -> preserves I (CNPJProcessor.update_fields E index data fields).
Proof.
  induction 1 as [|key rest HK _ IH]; simpl; [apply preserves_ret|].
  apply preserves_bind; [apply preserves_py_in|]. intros present.
  apply preserves_bind; [|intros _; exact IH].
  destruct present; [|apply preserves_ret].
  apply preserves_bind; [apply preserves_py_getitem|].
  intros v. apply preserves_at_set, HK.
Qed.

Lemma preserves_row_body fields hdr index row :
  Forall K fields -> preserves I (CNPJProcessor.row_body E fields hdr index row).
Proof.
  intros HK. unfold CNPJProcessor.row_body.
  apply preserves_bind.
  { unfold CNPJProcessor.row_getitem.
    destruct (bool_decide _); [apply preserves_ret|apply preserves_raise]. }
  intros raw.
  apply preserves_bind.
  { apply preserves_modify. intros s. apply blind_to_local. }
  intros _.
  apply preserves_bind; [apply preserves_get|]. intros cached.
  apply preserves_bind.
  { destruct (negb (truthy cached)); [|apply preserves_ret].
    apply preserves_bind; [apply preserves_fetch|]. intros fetched.
    apply preserves_bind; [|intros _; apply preserves_ret].
    destruct (truthy fetched); [apply preserves_set|apply preserves_ret]. }
  intros data.
  destruct (truthy data); [|apply preserves_logging].
  apply preserves_bind; [apply preserves_update_fields, HK|].
  intros _. apply preserves_logging.
Qed.

Lemma preserves_row fields hdr index row :
  Forall K fields ->
  preserves I (try_except (CNPJProcessor.row_body E fields hdr index row)
                 is_Exception CNPJProcessor.row_handler).
Proof.
  intros HK. apply preserves_try_except;
    [apply preserves_row_body, HK | apply preserves_row_handler].
Qed.

End Preserves.

(** ** The run, step by step *)

Section Run.

Context (A : FloatOps) (E : Oracle).

#[local] Abbreviation iterrows := (CNPJProcessor.iterrows A E).
#[local] Abbreviation run := (CNPJProcessor.run A E).

(** [run] never raises, and ends in one of two ways. *)
Lemma run_unfold path fields s :
  run path fields s =
  let s0 := set_local_cnpj None s in
  match files s !! path with
  | None => (Ok tt, failed (Exn FileNotFoundError ("No such file or directory: " ++ path)) s0)
  | Some (Workbook sh) =>
      match iterrows fields (header sh) (length (lines sh)) 0 (lines sh)
              (set_df (CNPJProcessor.frame_of sh) s0) with
      | (Raise e, s1) => (Ok tt, failed e s1)
      | (Ok _, s1) =>
          if writable E (CNPJProcessor.output_path path)
          then
            if CNPJProcessor.savable (df s1)
            then (Ok tt, completed (CNPJProcessor.output_path path) s1)
            else (Ok tt, failed (Exn ValueError "Cannot convert the value to Excel") s1)
          else (Ok tt, failed (Exn PermissionError
                                 ("Permission denied: " ++ CNPJProcessor.output_path path)) s1)
      end
  | Some _ => (Ok tt, failed (Exn ValueError "Excel file format cannot be determined") s0)
  end.
Proof.
  unfold CNPJProcessor.run.
  rewrite (bind_ok _ _ s tt (set_local_cnpj None s) eq_refl).
  unfold try_except, CNPJProcessor.read_excel.
  unfold bind at 1. unfold bind at 1. unfold get_state at 1.
  change (files (set_local_cnpj None s)) with (files s).
  destruct (files s !! path) as [[| |entries|sh]|]; try reflexivity.
  unfold ret at 1. unfold bind at 1. unfold modify at 1. unfold bind at 1.
  cbv zeta.
  destruct (iterrows _ _ _ _ _ _) as [[[]|e] s1]; [|reflexivity].
  unfold CNPJProcessor.to_excel, bind, get_state.
  destruct (writable E _); [|reflexivity].
  destruct (CNPJProcessor.savable (df s1)); reflexivity.
Qed.

(** One turn of the loop: the row, then its progress signal. *)
Lemma iterrows_cons fields hdr total index row rest s :
  iterrows fields hdr total index (row :: rest) s =
  match try_except (CNPJProcessor.row_body E fields hdr index row)
          is_Exception CNPJProcessor.row_handler s with
  | (Raise e, s1) => (Raise e, s1)
  | (Ok _, s1) =>
      match total with
      | O => (Raise (Exn ZeroDivisionError "division by zero"), s1)
      | S _ =>
          iterrows fields hdr total (S index) rest
            (set_signals
               (signals s1 ++ [progress_updated (CNPJProcessor.percent A index total)]) s1)
      end
  end.
Proof.
  simpl. unfold bind at 1.
  destruct (try_except _ _ _ s) as [[[]|e] s1]; [|reflexivity].
  unfold bind, CNPJProcessor.progress. destruct total; reflexivity.
Qed.

Lemma row_keeps_signals fields hdr index row s r s' :
  try_except (CNPJProcessor.row_body E fields hdr index row)
    is_Exception CNPJProcessor.row_handler s = (r, s') ->
  signals s' = signals s.
Proof.
  intros Hrun.
  refine (preserves_row (fun s0 => signals s0 = signals s)
            _ _ _ _ _ _ E (fun _ => True) _ fields hdr index row _ s r s' eq_refl Hrun);
    try (intros; simpl; assumption).
  apply Forall_forall. intros; exact Logic.I.
Qed.

(** The loop sends the percentages of the rows it gets through, in order,
    and nothing else; it gets through all of them unless it raises. *)
Lemma iterrows_signals fields hdr total pending : forall index s r s',
  (length pending <= total)%nat ->
  iterrows fields hdr total index pending s = (r, s') ->
  exists k, (k <= length pending)%nat
    /\ signals s'
       = (signals s
          ++ map (fun i => progress_updated (CNPJProcessor.percent A i total)) (seq index k))%list
    /\ (forall u, r = Ok u -> k = length pending).
Proof.
  induction pending as [|row rest IH]; intros index s r s' Hlen Hrun.
  - injection Hrun as <- <-. exists O. simpl. rewrite app_nil_r. auto.
  - rewrite iterrows_cons in Hrun.
    destruct (try_except _ _ _ s) as [[[]|e] s1] eqn:Hrow.
    + apply row_keeps_signals in Hrow.
      destruct total as [|total']; [simpl in Hlen; lia|].
      apply IH in Hrun; [|simpl in Hlen; lia].
      destruct Hrun as (k & Hk & Hsig & Hall).
      exists (S k). split; [simpl; lia|]. split.
      * rewrite Hsig. simpl. rewrite Hrow, <- app_assoc. reflexivity.
      * intros u Hu. simpl. f_equal. eauto.
    + injection Hrun as <- <-. apply row_keeps_signals in Hrow.
      exists O. simpl. rewrite app_nil_r. split; [lia|]. split; [assumption|discriminate].
Qed.

End Run.

(** ** Progress and the terminal signal *)

Lemma exact_laws : FloatLaws Exact.ops.
Proof.
  split; simpl.
  - intros a b n Hab Hn. unfold Exact.div.
    rewrite !Qred_correct. unfold Qle. simpl. nia.
  - intros x y k Hk Hxy. unfold Exact.mul.
    apply Qmult_le_compat_r; [assumption|].
    unfold Qle. simpl. lia.
  - intros x y Hxy. unfold Exact.to_int.
    destruct (Z.ltb_spec (Qnum x) 0) as [Hx|Hx];
      destruct (Z.ltb_spec (Qnum y) 0) as [Hy|Hy].
    + apply Qceiling_resp_le, Hxy.
    + transitivity 0.
      * change 0 with (Qceiling 0). apply Qceiling_resp_le.
        unfold Qle. simpl. lia.
      * change 0 with (Qfloor 0). apply Qfloor_resp_le.
        unfold Qle. simpl. lia.
    + exfalso. unfold Qle in Hxy. nia.
    + apply Qfloor_resp_le, Hxy.
  - intros n Hn. unfold Exact.div. apply Qred_complete.
    unfold Qeq. simpl. rewrite Z2Pos.id by assumption. lia.
  - vm_compute. reflexivity.
Qed.

Section Percentages.

Context (A : FloatOps) (L : FloatLaws A).

Lemma percent_mono n i j :
  (0 < n)%nat -> (i <= j)%nat ->
  CNPJProcessor.percent A i n <= CNPJProcessor.percent A j n.
Proof.
  intros Hn Hij. unfold CNPJProcessor.percent.
  apply (trunc_mono A L), (fmul_mono A L); [lia|].
  apply (truediv_mono A L); lia.
Qed.

Lemma percent_full n :
  (0 < n)%nat -> CNPJProcessor.percent A (n - 1) n = 100.
Proof.
  intros Hn. unfold CNPJProcessor.percent.
  replace (Z.of_nat (n - 1) + 1) with (Z.of_nat n) by lia.
  rewrite (truediv_diag A L) by lia. apply (one_hundred A L).
Qed.

Lemma percentages_lookup n k i :
  (i < k)%nat -> percentages A n k !! i = Some (CNPJProcessor.percent A i n).
Proof.
  intros Hi. unfold percentages.
  rewrite list_lookup_fmap, lookup_seq_lt by assumption. reflexivity.
Qed.

Lemma percentages_length n k : length (percentages A n k) = k.
Proof. unfold percentages. rewrite length_map, length_seq. reflexivity. Qed.

Lemma percentages_non_decreasing n k :
  (k <= n)%nat -> non_decreasing (percentages A n k).
Proof.
  intros Hk i j a b Hij Ha Hb.
  assert (Hj : (j < k)%nat).
  { apply lookup_lt_Some in Hb. rewrite percentages_length in Hb. exact Hb. }
  rewrite percentages_lookup in Ha, Hb by lia.
  injection Ha as <-. injection Hb as <-.
  apply percent_mono; lia.
Qed.

Lemma percentages_last n :
  n <> O -> last (percentages A n n) = Some 100.
Proof.
  intros Hn. rewrite last_lookup, percentages_length.
  replace (Init.Nat.pred n) with (n - 1)%nat by lia.
  rewrite percentages_lookup by lia. f_equal. apply percent_full. lia.
Qed.


End Percentages.


(** The same rows with Python's floats: 33, 66 and 100, then completion. *)
Lemma end_to_end_signals :
  signals (snd (CNPJProcessor.run Binary64.ops Scenario.beta_service
                  "/dados/empresas.xlsx" ["nome"] Scenario.end_to_end))
  = [progress_updated 33; progress_updated 66; progress_updated 100; process_finished].
Proof. vm_compute. reflexivity. Qed.

(** The cells of the example after the run: the cached name in the first
    row, the second row as it was, the fetched name in the third; the first
    row cost no request. *)
Lemma end_to_end_cells :
  let s' := snd (CNPJProcessor.run Binary64.ops Scenario.beta_service
                   "/dados/empresas.xlsx" ["nome"] Scenario.end_to_end) in
  cell_at (df s') 0 "nome" = Some (Written (JStr "Acme"))
  /\ cell_at (df s') 1 "nome" = Some (Orig (XStr "?"))
  /\ cell_at (df s') 2 "nome" = Some (Written (JStr "Beta"))
  /\ requests s' = [ "https://www.receitaws.com.br/v1/cnpj/00000000000000";
                     "https://www.receitaws.com.br/v1/cnpj/44555666000199" ]
  /\ fst <$> cache s' !! "44555666000199" = Some (JObj [("nome", JStr "Beta")]).
Proof. repeat split; vm_compute; reflexivity. Qed.

(** Python's floats on every sheet of up to 120 rows: the percentages of
    a full run never decrease and end at 100. *)
Lemma binary64_percentages_checked :
  forallb
    (fun n =>
       let ps := percentages Binary64.ops n n in
       (forallb (fun pq => fst pq <=? snd pq) (zip ps (tail ps))
        && bool_decide (last ps = Some 100))%bool)
    (seq 1 120)
  = true.
Proof. vm_compute. reflexivity. Qed.

(** ** How a run ends *)

Section Endings.

Context (A : FloatOps) (E : Oracle).

Lemma last_signal_failed e s : last (signals (failed e s)) <> Some process_finished.
Proof. simpl. rewrite last_snoc. discriminate. Qed.

(** A run whose last signal is [process_finished] went through the loop
    and the write. *)
Lemma run_finished path fields s r s' :
  CNPJProcessor.run A E path fields s = (r, s') ->
  last (signals s') = Some process_finished ->
  exists sh s1 u,
    files s !! path = Some (Workbook sh)
    /\ CNPJProcessor.iterrows A E fields (header sh) (length (lines sh)) 0 (lines sh)
         (set_df (CNPJProcessor.frame_of sh) (set_local_cnpj None s)) = (Ok u, s1)
    /\ writable E (CNPJProcessor.output_path path) = true
    /\ s' = completed (CNPJProcessor.output_path path) s1.
Proof.
  rewrite run_unfold. cbv zeta. intros Hrun Hlast.
  destruct (files s !! path) as [[| |entries|sh]|];
    try (injection Hrun as <- <-; destruct (last_signal_failed _ _ Hlast)).
  destruct (CNPJProcessor.iterrows _ _ _ _ _ _ _ _) as [[u|e] s1] eqn:Hloop;
    [|injection Hrun as <- <-; destruct (last_signal_failed _ _ Hlast)].
  destruct (writable E _) eqn:Hw;
    [|injection Hrun as <- <-; destruct (last_signal_failed _ _ Hlast)].
  destruct (CNPJProcessor.savable (df s1));
    [|injection Hrun as <- <-; destruct (last_signal_failed _ _ Hlast)].
  injection Hrun as <- <-. exists sh, s1, u. auto.
Qed.

(** C10.  On a sheet without rows the loop body, and with it the division
    by [total_rows], is never reached: no progress signal is sent, and,
    the output path being writable, the workbook is written and
    [process_finished] is the one signal of the run. *)
Theorem empty_sheet_completes (path : string) (fields hdr : list string) (s : state) :
  files s !! path = Some (Workbook (Sheet hdr [])) ->
  writable E (CNPJProcessor.output_path path) = true ->
  exists s',
    CNPJProcessor.run A E path fields s = (Ok tt, s')
    /\ signals s' = (signals s ++ [process_finished])%list
    /\ files s' !! CNPJProcessor.output_path path = Some (Workbook (Sheet hdr []))
    /\ log s'
       = (log s ++ [(INFO, ("Processamento concluído. Arquivo salvo: "
                            ++ CNPJProcessor.output_path path)%string)])%list.
Proof.
  intros Hfile Hw. rewrite run_unfold, Hfile. simpl. rewrite Hw.
  eexists. split; [reflexivity|]. split; [reflexivity|].
  split; [|reflexivity].
  simpl. apply lookup_insert_eq.
Qed.

End Endings.

(** C10 on a concrete file system. *)
Lemma empty_sheet_completes_offline :
  let s := Scenario.with_file "/dados/vazio.xlsx" (Workbook (Sheet ["CNPJ"; "nome"] [])) in
  exists s',
    CNPJProcessor.run Binary64.ops Scenario.offline "/dados/vazio.xlsx" ["nome"] s
    = (Ok tt, s')
    /\ signals s' = (signals s ++ [process_finished])%list
    /\ files s' !! CNPJProcessor.output_path "/dados/vazio.xlsx"
       = Some (Workbook (Sheet ["CNPJ"; "nome"] []))
    /\ log s'
       = (log s ++ [(INFO, ("Processamento concluído. Arquivo salvo: "
                            ++ CNPJProcessor.output_path "/dados/vazio.xlsx")%string)])%list.
Proof.
  apply (empty_sheet_completes Binary64.ops Scenario.offline "/dados/vazio.xlsx"
           ["nome"] ["CNPJ"; "nome"]); reflexivity.
Defined.

(** C3 at its failing input.  The sheet has one row and no column [CNPJ]:
    reading the identifier raises before the local [cnpj] is bound, the
    handler of the row raises in turn while it formats its message, and
    the run is aborted: [error_occurred] and nothing else is sent, no
    progress, and no workbook is written. *)
Theorem missing_column_aborts_run (A : FloatOps) (E : Oracle) :
  let s' := snd (CNPJProcessor.run A E "/dados/empresas.xlsx" ["nome"]
                   (Scenario.with_file "/dados/empresas.xlsx"
                      (Workbook Scenario.no_cnpj_column))) in
  signals s'
  = [error_occurred
       "Erro durante o processamento: cannot access local variable 'cnpj' where it is not associated with a value"]
  /\ files s' !! "/dados/empresas_atualizado.xlsx" = None.
Proof. split; vm_compute; reflexivity. Qed.

(** ** The output path *)

Lemma find_cons c s sub :
  Py.find (String c s) sub
  = if String.prefix sub (String c s) then Some O else S <$> Py.find s sub.
Proof. reflexivity. Qed.

Lemma replace_from_cons old new c s :
  Py.replace_from old new (String c s) 0
  = if String.prefix old (String c s)
    then new ++ Py.replace_from old new s (String.length old - 1)
    else String c (Py.replace_from old new s 0).
Proof. reflexivity. Qed.

(** When [.xlsx] occurs in the path only as its ending, the replacement
    puts the marker in front of the extension. *)
Lemma output_path_of_xlsx stem :
  Py.find (stem ++ ".xlsx") ".xlsx" = Some (String.length stem) ->
  CNPJProcessor.output_path (stem ++ ".xlsx") = stem ++ "_atualizado.xlsx".
Proof.
  unfold CNPJProcessor.output_path, Py.replace.
  induction stem as [|c stem IH]; [reflexivity|].
  change (String c stem ++ ".xlsx") with (String c (stem ++ ".xlsx")).
  rewrite find_cons, replace_from_cons.
  destruct (String.prefix ".xlsx" (String c (stem ++ ".xlsx"))); [discriminate|].
  intros Hfind.
  destruct (Py.find (stem ++ ".xlsx") ".xlsx") as [n|] eqn:Hn; [|discriminate].
  injection Hfind as Hfind. simpl in Hfind. subst n.
  simpl. f_equal. apply IH. reflexivity.
Qed.

Section OutputPath.

Context (A : FloatOps) (E : Oracle).

(** C7, as amended.  For an input path that ends in [.xlsx] and holds that
    text nowhere else, a run that sends [process_finished] has written the
    frame to the path with [_atualizado] put in front of the extension, in
    the same directory.  The signal itself carries nothing: the output path
    is what the last line of the log reports. *)
Theorem output_written_beside_input (stem : string) (fields : list string)
    (s : state) (r : result unit) (s' : state) :
  Py.find (stem ++ ".xlsx") ".xlsx" = Some (String.length stem) ->
  CNPJProcessor.run A E (stem ++ ".xlsx") fields s = (r, s') ->
  last (signals s') = Some process_finished ->
  files s' !! (stem ++ "_atualizado.xlsx")
  = Some (Workbook (CNPJProcessor.sheet_of (df s')))
  /\ last (log s')
     = Some (INFO, "Processamento concluído. Arquivo salvo: " ++ stem ++ "_atualizado.xlsx").
Proof.
  intros Hstem Hrun Hlast.
  destruct (run_finished A E _ _ _ _ _ Hrun Hlast) as (sh & s1 & u & _ & _ & _ & ->).
  rewrite (output_path_of_xlsx stem Hstem).
  split.
  - simpl. apply lookup_insert_eq.
  - simpl. apply last_snoc.
Qed.

End OutputPath.

(** C7 on the end-to-end example. *)
Lemma output_written_beside_empresas :
  let s' := snd (CNPJProcessor.run Binary64.ops Scenario.beta_service
                   "/dados/empresas.xlsx" ["nome"] Scenario.end_to_end) in
  files s' !! "/dados/empresas_atualizado.xlsx"
  = Some (Workbook (CNPJProcessor.sheet_of (df s')))
  /\ last (log s')
     = Some (INFO, "Processamento concluído. Arquivo salvo: /dados/empresas_atualizado.xlsx").
Proof.
  apply (output_written_beside_input Binary64.ops Scenario.beta_service
           "/dados/empresas" ["nome"] Scenario.end_to_end
           (fst (CNPJProcessor.run Binary64.ops Scenario.beta_service
                   "/dados/empresas.xlsx" ["nome"] Scenario.end_to_end))).
  - vm_compute. reflexivity.
  - apply surjective_pairing.
  - vm_compute. reflexivity.
Defined.

(** C7, as the claim has it: every [.xlsx] of the path is replaced, also
    one in the name of a directory, and the output then lies elsewhere. *)
Lemma output_path_leaves_directory :
  CNPJProcessor.output_path "/dados/v1.xlsx_files/plan.xlsx"
  = "/dados/v1_atualizado.xlsx_files/plan_atualizado.xlsx"
  /\ CNPJProcessor.output_path "/dados/PLAN.XLSX" = "/dados/PLAN.XLSX".
Proof. split; vm_compute; reflexivity. Qed.

(** ** What a whole run hands on *)

Section RunInvariant.

Context (A : FloatOps) (E : Oracle) (I : state -> Prop) (K : string -> Prop).

Hypothesis blind_to_ticks : forall v s, I s -> I (set_ticks v s).
Hypothesis blind_to_requests : forall v s, I s -> I (set_requests v s).
Hypothesis blind_to_log : forall v s, I s -> I (set_log v s).
Hypothesis blind_to_files : forall v s, I s -> I (set_files v s).
Hypothesis blind_to_cache : forall v s, I s -> I (set_cache v s).
Hypothesis blind_to_local : forall v s, I s -> I (set_local_cnpj v s).
Hypothesis blind_to_signals : forall v s, I s -> I (set_signals v s).
Hypothesis survives_at_put : forall index key v s,
  K key -> I s -> I (set_df (at_put (df s) index key v) s).

Lemma preserves_iterrows fields hdr total pending :
  Forall K fields ->
  forall index, preserves I (CNPJProcessor.iterrows A E fields hdr total index pending).
Proof.
  intros HK. induction pending as [|row rest IH]; intros index; simpl.
  - apply preserves_ret.
  - apply preserves_bind.
    { apply preserves_row with (K := K); assumption. }
    intros _. apply preserves_bind.
    { unfold CNPJProcessor.progress.
      destruct total; [apply preserves_raise|apply preserves_ret]. }
    intros p. apply preserves_bind; [apply preserves_emit; assumption|].
    intros _. apply IH.
Qed.

Lemma run_preserves path fields sh s r s' :
  Forall K fields ->
  files s !! path = Some (Workbook sh) ->
  I (set_df (CNPJProcessor.frame_of sh) (set_local_cnpj None s)) ->
  CNPJProcessor.run A E path fields s = (r, s') ->
  I s'.
Proof.
  intros HK Hfile Hstart. rewrite run_unfold, Hfile. cbv zeta.
  destruct (CNPJProcessor.iterrows _ _ _ _ _ _ _ _) as [r1 s1] eqn:Hloop.
  pose proof (preserves_iterrows _ _ _ _ HK _ _ _ _ Hstart Hloop) as H1.
  assert (Hfailed : forall e, I (failed e s1)).
  { intros e. unfold failed. apply blind_to_signals, blind_to_log, H1. }
  destruct r1 as [u|e]; [|intros [= <- <-]; apply Hfailed].
  destruct (writable E _); [|intros [= <- <-]; apply Hfailed].
  destruct (CNPJProcessor.savable (df s1)); [|intros [= <- <-]; apply Hfailed].
  intros [= <- <-]. unfold completed.
  apply blind_to_signals, blind_to_log, blind_to_files, H1.
Qed.

End RunInvariant.

(** ** The columns of the output *)

Section Columns.

Context (A : FloatOps) (E : Oracle).

Lemma columns_at_put d index key v :
  columns (at_put d index key v)
  = if has_column d key then columns d else (columns d ++ [key])%list.
Proof. reflexivity. Qed.


End Columns.



(** ** Resolving the payload of a row *)

Section Resolve.

Context (E : Oracle).

Lemma row_getitem_present hdr row key s :
  key ∈ hdr ->
  CNPJProcessor.row_getitem hdr row key s = (Ok (default XNaN (row !! key)), s).
Proof.
  intros H. unfold CNPJProcessor.row_getitem.
  rewrite bool_decide_eq_true_2 by assumption. reflexivity.
Qed.

Lemma get_returns cnpj s :
  exists v s', CNPJCache.get E cnpj s = (Ok v, s').
Proof.
  unfold CNPJCache.get, bind, get_state, now, ret.
  destruct (cache s !! cnpj) as [[data T]|]; simpl; [|eauto].
  destruct (clock E (ticks s) - T <? days 30); eauto.
Qed.

Lemma fetch_returns cnpj s :
  exists v s',
    CNPJProcessor.fetch_cnpj_data E cnpj s = (Ok v, s')
    /\ requests s' = (requests s ++ [CNPJProcessor.url_of cnpj])%list.
Proof.
  unfold CNPJProcessor.fetch_cnpj_data, try_except, bind,
    CNPJProcessor.requests_get, CNPJProcessor.raise_for_status.
  destruct (network E (length (requests s)) (CNPJProcessor.url_of cnpj))
    as [why|status_code b]; simpl; [eauto|].
  destruct ((400 <=? status_code) && (status_code <? 600))%bool; simpl; [eauto|].
  destruct b; simpl; eauto.
Qed.

(** [set] files the entry under the identifier even when the file cannot
    be written, and touches neither the requests nor the frame. *)
Lemma set_effect path cnpj data s r s' :
  CNPJCache.set E path cnpj data s = (r, s') ->
  cache s' = <[cnpj := (data, clock E (ticks s))]> (cache s)
  /\ requests s' = requests s
  /\ df s' = df s.
Proof.
  unfold CNPJCache.set, CNPJCache.save_cache, bind, now, modify, get_state. simpl.
  destruct (writable E path); intros [= <- <-]; auto.
Qed.

(** Writing the fields and logging touch neither the requests nor the
    dictionary of the cache. *)
Lemma merge_keeps_requests_and_cache index data fields text s r s' :
  (run* CNPJProcessor.update_fields E index data fields in logging INFO text) s = (r, s') ->
  requests s' = requests s /\ cache s' = cache s.
Proof.
  intros Hrun.
  assert (H : preserves (fun st => requests st = requests s /\ cache st = cache s)
                (run* CNPJProcessor.update_fields E index data fields in
                 logging INFO text)).
  { apply preserves_bind.
    - apply preserves_update_fields with (K := fun _ => True); blind.
    - intros _. apply preserves_logging; blind. }
  exact (H s r s' (conj eq_refl eq_refl) Hrun).
Qed.

Lemma get_keeps cnpj s r s' :
  CNPJCache.get E cnpj s = (r, s') ->
  requests s' = requests s /\ cache s' = cache s /\ df s' = df s.
Proof.
  intros Hrun.
  assert (H : preserves
                (fun st => requests st = requests s /\ cache st = cache s /\ df st = df s)
                (CNPJCache.get E cnpj))
    by (apply preserves_get; blind).
  exact (H s r s' (conj eq_refl (conj eq_refl eq_refl)) Hrun).
Qed.

Lemma fetch_keeps cnpj s r s' :
  CNPJProcessor.fetch_cnpj_data E cnpj s = (r, s') ->
  cache s' = cache s /\ df s' = df s /\ ticks s' = ticks s.
Proof.
  intros Hrun.
  assert (H : preserves
                (fun st => cache st = cache s /\ df st = df s /\ ticks st = ticks s)
                (CNPJProcessor.fetch_cnpj_data E cnpj))
    by (apply preserves_fetch; blind).
  exact (H s r s' (conj eq_refl (conj eq_refl eq_refl)) Hrun).
Qed.

(** C4, as amended.  A row whose sheet has the identifier column first
    asks the cache.  A truthy answer is the payload: no request is sent and
    the dictionary of the cache stays as it was.  On any other answer,
    [None] or an empty payload alike, exactly one request is sent; a truthy
    response is filed in the cache under the identifier with the reading of
    the clock, and after any other response the row returns normally with
    the frame and the dictionary untouched. *)
Theorem row_resolves_payload (fields hdr : list string) (index : nat)
    (row : gmap string xl) (s : state) (r : result unit) (s' : state) :
  "CNPJ" ∈ hdr ->
  CNPJProcessor.row_body E fields hdr index row s = (r, s') ->
  let cnpj := CNPJProcessor.canonical (default XNaN (row !! "CNPJ")) in
  exists cached s1,
    CNPJCache.get E cnpj (set_local_cnpj (Some cnpj) s) = (Ok cached, s1)
    /\ ((truthy cached = true
         /\ requests s' = requests s
         /\ cache s' = cache s
         /\ (run* CNPJProcessor.update_fields E index cached fields in
             logging INFO ("CNPJ " ++ cnpj ++ " atualizado com sucesso.")) s1 = (r, s'))
        \/ (truthy cached = false
            /\ exists fetched s2,
                 CNPJProcessor.fetch_cnpj_data E cnpj s1 = (Ok fetched, s2)
                 /\ requests s' = (requests s ++ [CNPJProcessor.url_of cnpj])%list
                 /\ ((truthy fetched = true
                      /\ cache s' = <[cnpj := (fetched, clock E (ticks s2))]> (cache s))
                     \/ (truthy fetched = false
                         /\ r = Ok tt /\ cache s' = cache s /\ df s' = df s)))).
Proof.
  intros Hcol Hrun cnpj.
  unfold CNPJProcessor.row_body in Hrun.
  rewrite (bind_ok _ _ _ _ _ (row_getitem_present hdr row "CNPJ" s Hcol)) in Hrun.
  fold cnpj in Hrun.
  rewrite (bind_ok _ _ s tt (set_local_cnpj (Some cnpj) s) eq_refl) in Hrun.
  destruct (get_returns cnpj (set_local_cnpj (Some cnpj) s)) as (cached & s1 & Hget).
  exists cached, s1. split; [exact Hget|].
  rewrite (bind_ok _ _ _ _ _ Hget) in Hrun.
  destruct (get_keeps _ _ _ _ Hget) as (Hreq1 & Hcache1 & Hdf1). simpl in *.
  destruct (truthy cached) eqn:Hcached; simpl in Hrun.
  - left. rewrite (bind_ok _ _ s1 cached s1 eq_refl) in Hrun. rewrite Hcached in Hrun.
    destruct (merge_keeps_requests_and_cache _ _ _ _ _ _ _ Hrun) as [Hreq Hcache].
    split; [reflexivity|]. split; [congruence|]. split; [congruence|]. exact Hrun.
  - right. split; [reflexivity|].
    destruct (fetch_returns cnpj s1) as (fetched & s2 & Hfetch & Hreq2).
    destruct (fetch_keeps _ _ _ _ Hfetch) as (Hcache2 & Hdf2 & _).
    exists fetched, s2. split; [exact Hfetch|].
    unfold bind at 1 in Hrun. rewrite (bind_ok _ _ _ _ _ Hfetch) in Hrun.
    destruct (truthy fetched) eqn:Hfetched.
    + destruct (CNPJCache.set E CNPJProcessor.cache_file cnpj fetched s2)
        as [r3 s3] eqn:Hset.
      destruct (set_effect _ _ _ _ _ _ Hset) as (Hcache3 & Hreq3 & _).
      destruct r3 as [[]|e].
      * rewrite (bind_ok _ _ _ _ _ Hset) in Hrun. unfold ret at 1 in Hrun.
        rewrite Hfetched in Hrun.
        destruct (merge_keeps_requests_and_cache _ _ _ _ _ _ _ Hrun) as [Hreq Hcache].
        split; [congruence|]. left. split; [reflexivity|]. congruence.
      * rewrite (bind_raise _ _ _ _ _ Hset) in Hrun. injection Hrun as <- <-.
        split; [congruence|]. left. split; [reflexivity|]. congruence.
    + rewrite (bind_ok _ _ s2 tt s2 eq_refl) in Hrun. unfold ret at 1 in Hrun.
      rewrite Hfetched in Hrun. injection Hrun as <- <-. simpl.
      split; [congruence|]. right. repeat split; congruence.
Qed.

End Resolve.

(** C4 on the first row of the end-to-end example, a cache hit. *)
Lemma row_resolves_cached_payload :
  let row : gmap string xl := {[ "CNPJ" := XStr "11222333000181"; "nome" := XStr "?" ]} in
  let s := set_df (CNPJProcessor.frame_of Scenario.three_rows) Scenario.end_to_end in
  let run_row := CNPJProcessor.row_body Scenario.beta_service ["nome"] ["CNPJ"; "nome"] 0 row s in
  let cnpj := CNPJProcessor.canonical (default XNaN (row !! "CNPJ")) in
  exists cached s1,
    CNPJCache.get Scenario.beta_service cnpj (set_local_cnpj (Some cnpj) s) = (Ok cached, s1)
    /\ ((truthy cached = true
         /\ requests (snd run_row) = requests s
         /\ cache (snd run_row) = cache s
         /\ (run* CNPJProcessor.update_fields Scenario.beta_service 0 cached ["nome"] in
             logging INFO ("CNPJ " ++ cnpj ++ " atualizado com sucesso.")) s1
            = (fst run_row, snd run_row))
        \/ (truthy cached = false
            /\ exists fetched s2,
                 CNPJProcessor.fetch_cnpj_data Scenario.beta_service cnpj s1 = (Ok fetched, s2)
                 /\ requests (snd run_row) = (requests s ++ [CNPJProcessor.url_of cnpj])%list
                 /\ ((truthy fetched = true
                      /\ cache (snd run_row)
                         = <[cnpj := (fetched, clock Scenario.beta_service (ticks s2))]> (cache s))
                     \/ (truthy fetched = false
                         /\ fst run_row = Ok tt
                         /\ cache (snd run_row) = cache s
                         /\ df (snd run_row) = df s)))).
Proof.
  intros row s run_row cnpj.
  apply (row_resolves_payload Scenario.beta_service ["nome"] ["CNPJ"; "nome"] 0 row s
           (fst run_row) (snd run_row)).
  - apply list_elem_of_here.
  - apply surjective_pairing.
Defined.

(** C4, as the claim has it.  The cache answers with a payload, the empty
    one a cache file may hold, and the request is sent all the same; and a
    response that arrives with status 200 and the body [{}] is a successful
    fetch that is not filed in the cache. *)
Lemma row_fetches_on_empty_payload :
  let row : gmap string xl := {[ "CNPJ" := XStr "11222333000181" ]} in
  let E := Scenario.answering (Response 200 (JsonBody (JObj []))) in
  fst (CNPJCache.get E "11222333000181" Scenario.empty_payload_cached) = Ok (JObj [])
  /\ requests (snd (CNPJProcessor.row_body E ["nome"] ["CNPJ"] 0 row
                      Scenario.empty_payload_cached))
     = ["https://www.receitaws.com.br/v1/cnpj/11222333000181"]
  /\ fst (CNPJProcessor.fetch_cnpj_data E "11222333000181" Scenario.blank) = Ok (JObj [])
  /\ cache (snd (CNPJProcessor.row_body E ["nome"] ["CNPJ"] 0 row Scenario.blank)) = ∅.
Proof. repeat split; vm_compute; reflexivity. Qed.

(** ** Rows that fail on their own *)

Section Isolation.

Context (A : FloatOps) (E : Oracle).

(** Past its first statement a row has bound the local [cnpj], however it
    ends. *)
Lemma row_binds_cnpj fields hdr index row s r s' :
  "CNPJ" ∈ hdr ->
  CNPJProcessor.row_body E fields hdr index row s = (r, s') ->
  is_Some (local_cnpj s').
Proof.
  intros Hcol Hrun. unfold CNPJProcessor.row_body in Hrun.
  rewrite (bind_ok _ _ _ _ _ (row_getitem_present hdr row "CNPJ" s Hcol)) in Hrun.
  match type of Hrun with
  | bind (modify ?f) ?k s = _ =>
      rewrite (bind_ok (modify f) k s tt (f s) eq_refl) in Hrun
  end.
  match type of Hrun with
  | ?tail ?s0 = _ =>
      assert (Htail : preserves (fun st => is_Some (local_cnpj st)) tail);
      [|exact (Htail s0 r s' (ex_intro _ _ eq_refl) Hrun)]
  end.
  apply preserves_bind; [apply preserves_get; blind|]. intros cached.
  apply preserves_bind.
  { destruct (negb (truthy cached)); [|apply preserves_ret].
    apply preserves_bind; [apply preserves_fetch; blind|]. intros fetched.
    apply preserves_bind; [|intros _; apply preserves_ret].
    destruct (truthy fetched); [apply preserves_set; blind|apply preserves_ret]. }
  intros data.
  destruct (truthy data); [|apply preserves_logging; blind].
  apply preserves_bind; [|intros _; apply preserves_logging; blind].
  apply preserves_update_fields with (K := fun _ => True); blind.
Qed.

(** With the identifier column in the sheet, whatever a row raises is
    caught and logged by its handler. *)
Lemma row_caught fields hdr index row s :
  "CNPJ" ∈ hdr ->
  exists s1,
    try_except (CNPJProcessor.row_body E fields hdr index row)
      is_Exception CNPJProcessor.row_handler s = (Ok tt, s1).
Proof.
  intros Hcol. unfold try_except.
  destruct (CNPJProcessor.row_body E fields hdr index row s) as [[[]|e] s1] eqn:Hrow;
    [eauto|].
  destruct (row_binds_cnpj _ _ _ _ _ _ _ Hcol Hrow) as [cnpj Hcnpj].
  simpl. unfold CNPJProcessor.row_handler, bind, get_state. rewrite Hcnpj.
  eexists. reflexivity.
Qed.

Lemma iterrows_gets_through fields hdr total pending :
  "CNPJ" ∈ hdr -> (length pending <= total)%nat ->
  forall index s, exists s',
    CNPJProcessor.iterrows A E fields hdr total index pending s = (Ok tt, s').
Proof.
  intros Hcol. induction pending as [|row rest IH]; intros Hlen index s.
  - eexists. reflexivity.
  - rewrite iterrows_cons.
    destruct (row_caught fields hdr index row s Hcol) as [s1 ->].
    destruct total as [|total']; [simpl in Hlen; lia|].
    apply IH. simpl in Hlen. lia.
Qed.


End Isolation.


(** ** A payload just stored *)

(** X2.  After [set], a [get] for the same identifier answers with the payload
    that was stored, as long as the clock has moved less than 30 days. *)
Theorem get_after_set (E : Oracle) (path cnpj : string) (data : json) (s : state)
    (r : result unit) (s1 : state) :
  CNPJCache.set E path cnpj data s = (r, s1) ->
  clock E (S (ticks s)) - clock E (ticks s) < days 30 ->
  fst (CNPJCache.get E cnpj s1) = Ok data.
Proof.
  unfold CNPJCache.set, CNPJCache.save_cache, bind, now, modify, get_state. simpl.
  intros Hset Hclock.
  assert (Hs1 : cache s1 = <[cnpj := (data, clock E (ticks s))]> (cache s)
                /\ ticks s1 = S (ticks s))
    by (destruct (writable E path); injection Hset as <- <-; auto).
  destruct Hs1 as [Hcache Hticks].
  unfold CNPJCache.get, bind, get_state, now.
  rewrite Hcache, lookup_insert_eq, Hticks. simpl.
  destruct (Z.ltb_spec (clock E (S (ticks s)) - clock E (ticks s)) (days 30));
    [reflexivity|lia].
Qed.

Lemma get_after_set_offline :
  fst (CNPJCache.get Scenario.offline "00000000001234"
         (snd (CNPJCache.set Scenario.offline "cnpj_cache.json" "00000000001234"
                 Scenario.acme Scenario.blank)))
  = Ok Scenario.acme.
Proof.
  apply (get_after_set Scenario.offline "cnpj_cache.json" "00000000001234" Scenario.acme
           Scenario.blank
           (fst (CNPJCache.set Scenario.offline "cnpj_cache.json" "00000000001234"
                   Scenario.acme Scenario.blank))).
  - apply surjective_pairing.
  - vm_compute. reflexivity.
Defined.

(** * Further properties *)

(** ** The cache across restarts *)

Section CacheRestart.

Context (E : Oracle).

Lemma load_cache_saved path entries s :
  files s !! path = Some (CacheDoc entries) ->
  CNPJCache.load_cache path s = (Ok entries, s).
Proof.
  intros H. unfold CNPJCache.load_cache, try_except, CNPJCache.open_json, bind, get_state.
  rewrite H. reflexivity.
Qed.

(** X3.  What [set] writes is what a later construction reads: once a
    [set] has gone through, a cache built on the backing file, in any
    later state that still has that file, holds the whole dictionary, the
    new entry and every older one, stale or not. *)
Theorem cache_survives_restart (path cnpj : string) (data : json) (s s1 later : state) :
  CNPJCache.set E path cnpj data s = (Ok tt, s1) ->
  files later !! path = files s1 !! path ->
  CNPJCache.init path later = (Ok tt, set_cache (cache s1) later)
  /\ cache s1 = <[cnpj := (data, clock E (ticks s))]> (cache s).
Proof.
  unfold CNPJCache.set, CNPJCache.save_cache, bind, now, modify, get_state. simpl.
  destruct (writable E path); [|discriminate].
  intros [= <-] Hlater. simpl in *.
  rewrite lookup_insert_eq in Hlater.
  split; [|reflexivity].
  unfold CNPJCache.init.
  rewrite (bind_ok _ _ _ _ _ (load_cache_saved path _ later Hlater)).
  reflexivity.
Qed.

End CacheRestart.

Lemma cache_survives_restart_offline :
  let s1 := snd (CNPJCache.set Scenario.offline "cnpj_cache.json" "00000000001234"
                   Scenario.acme Scenario.empty_payload_cached) in
  CNPJCache.init "cnpj_cache.json" (set_cache ∅ s1) = (Ok tt, set_cache (cache s1) (set_cache ∅ s1))
  /\ cache s1
     = <[ "00000000001234" := (Scenario.acme, clock Scenario.offline 0) ]>
         (cache Scenario.empty_payload_cached).
Proof.
  apply (cache_survives_restart Scenario.offline "cnpj_cache.json" "00000000001234"
           Scenario.acme Scenario.empty_payload_cached); reflexivity.
Defined.

(** ** A cache file that cannot be written *)

Section ReadOnlyCache.

Context (E : Oracle).

Lemma raise_for_status_passes status_code s :
  status_code < 400 \/ 600 <= status_code ->
  CNPJProcessor.raise_for_status status_code s = (Ok tt, s).
Proof.
  intros H. unfold CNPJProcessor.raise_for_status.
  destruct (Z.leb_spec 400 status_code); destruct (Z.ltb_spec status_code 600);
    simpl; first [reflexivity | lia].
Qed.

Lemma get_miss cnpj s :
  cache s !! cnpj = None -> CNPJCache.get E cnpj s = (Ok JNull, s).
Proof.
  intros H. unfold CNPJCache.get, bind, get_state. rewrite H. reflexivity.
Qed.

Lemma fetch_answered cnpj s status_code payload :
  network E (length (requests s)) (CNPJProcessor.url_of cnpj)
  = Response status_code (JsonBody payload) ->
  status_code < 400 \/ 600 <= status_code ->
  CNPJProcessor.fetch_cnpj_data E cnpj s
  = (Ok payload, set_requests (requests s ++ [CNPJProcessor.url_of cnpj]) s).
Proof.
  intros Hnet Hstatus.
  unfold CNPJProcessor.fetch_cnpj_data, try_except.
  unfold bind at 1. unfold CNPJProcessor.requests_get. rewrite Hnet.
  cbv beta iota zeta. simpl fst. simpl snd.
  unfold bind. rewrite raise_for_status_passes by assumption.
  reflexivity.
Qed.

(** X4.  An error while the cache is persisted is not swallowed by [set],
    and in the loop it costs the row its data: when the identifier is not
    cached, the service answers with a usable payload and the cache file
    cannot be written, the row ends in its handler.  The frame and the
    files are as before, the payload stays in the dictionary in memory,
    and the log has gained the one line of the handler. *)
Theorem unwritable_cache_costs_the_row (fields hdr : list string) (index : nat)
    (row : gmap string xl) (s : state) (status_code : Z) (payload : json) :
  let cnpj := CNPJProcessor.canonical (default XNaN (row !! "CNPJ")) in
  "CNPJ" ∈ hdr ->
  cache s !! cnpj = None ->
  network E (length (requests s)) (CNPJProcessor.url_of cnpj)
  = Response status_code (JsonBody payload) ->
  status_code < 400 \/ 600 <= status_code ->
  truthy payload = true ->
  writable E CNPJProcessor.cache_file = false ->
  exists s1,
    try_except (CNPJProcessor.row_body E fields hdr index row)
      is_Exception CNPJProcessor.row_handler s = (Ok tt, s1)
    /\ df s1 = df s
    /\ files s1 = files s
    /\ cache s1 = <[cnpj := (payload, clock E (ticks s))]> (cache s)
    /\ log s1
       = (log s ++ [(ERROR, ("Erro ao processar CNPJ " ++ cnpj
                             ++ ": Permission denied: cnpj_cache.json")%string)])%list.
Proof.
  intros cnpj Hcol Hmiss Hnet Hstatus Htruthy Hro.
  unfold try_except, CNPJProcessor.row_body.
  rewrite (bind_ok _ _ _ _ _ (row_getitem_present hdr row "CNPJ" s Hcol)).
  fold cnpj.
  rewrite (bind_ok _ _ s tt (set_local_cnpj (Some cnpj) s) eq_refl).
  rewrite (bind_ok _ _ _ _ _ (get_miss cnpj (set_local_cnpj (Some cnpj) s) Hmiss)).
  simpl negb. cbv iota.
  unfold bind at 1. unfold bind at 1.
  rewrite (fetch_answered cnpj (set_local_cnpj (Some cnpj) s) status_code payload Hnet Hstatus).
  rewrite Htruthy.
  unfold CNPJCache.set, CNPJCache.save_cache, bind, now, modify, get_state. simpl.
  rewrite Hro. simpl.
  unfold CNPJProcessor.row_handler, bind, get_state, logging, modify. simpl.
  eexists. split; [reflexivity|]. auto.
Qed.

End ReadOnlyCache.

Lemma unwritable_cache_costs_first_row :
  let row : gmap string xl := {[ "CNPJ" := XStr "11222333000181"; "nome" := XStr "?" ]} in
  let s := set_df (CNPJProcessor.frame_of Scenario.three_rows) Scenario.blank in
  let cnpj := CNPJProcessor.canonical (default XNaN (row !! "CNPJ")) in
  exists s1,
    try_except (CNPJProcessor.row_body Session.read_only_cache ["nome"] ["CNPJ"; "nome"] 0 row)
      is_Exception CNPJProcessor.row_handler s = (Ok tt, s1)
    /\ df s1 = df s
    /\ files s1 = files s
    /\ cache s1 = <[cnpj := (Scenario.acme, clock Session.read_only_cache (ticks s))]> (cache s)
    /\ log s1
       = (log s ++ [(ERROR, ("Erro ao processar CNPJ " ++ cnpj
                             ++ ": Permission denied: cnpj_cache.json")%string)])%list.
Proof.
  intros row s cnpj.
  apply (unwritable_cache_costs_the_row Session.read_only_cache ["nome"] ["CNPJ"; "nome"]
           0 row s 200 Scenario.acme).
  - apply list_elem_of_here.
  - reflexivity.
  - reflexivity.
  - left. lia.
  - reflexivity.
  - reflexivity.
Defined.

(** ** The cells a run may touch *)

Section Untouched.

Context (A : FloatOps) (E : Oracle).

(** X5.  A run writes nowhere but in the columns of the selected fields:
    the frame keeps its rows, in number and order, and every cell of a
    column that was not selected is the cell that was read from the
    workbook, whatever the service answered and whichever rows failed. *)
Theorem run_touches_selected_columns_only (path : string) (fields : list string)
    (sh : sheet) (s : state) (r : result unit) (s' : state) :
  files s !! path = Some (Workbook sh) ->
  CNPJProcessor.run A E path fields s = (r, s') ->
  length (rows (df s')) = length (lines sh)
  /\ forall index key, key ∉ fields ->
       cell_at (df s') index key = cell_at (CNPJProcessor.frame_of sh) index key.
Proof.
  intros Hfile Hrun.
  pose (same := fun row row0 : gmap string cell =>
                  forall key, key ∉ fields -> row !! key = row0 !! key).
  pose (I := fun st : state =>
    Forall2 same (rows (df st)) (rows (CNPJProcessor.frame_of sh))
    /\ forall key, key ∉ fields ->
         has_column (df st) key = has_column (CNPJProcessor.frame_of sh) key).
  assert (HI : I s').
  { refine (run_preserves A E I (fun key => key ∈ fields)
              _ _ _ _ _ _ _ _ path fields sh s r s' _ Hfile _ Hrun);
      try (intros v st Hst; exact Hst).
    - intros index key v st Hkey [Hrows Hcols]. split; simpl.
      + apply Forall2_alter_l; [exact Hrows|].
        intros row row0 _ _ Hsame key' Hkey'.
        rewrite lookup_insert_ne by (intros ->; contradiction).
        apply Hsame, Hkey'.
      + intros key' Hkey'. rewrite <- (Hcols key' Hkey').
        unfold has_column at 1. simpl. unfold has_column at 2.
        apply bool_decide_ext.
        destruct (has_column (df st) key); [reflexivity|].
        rewrite elem_of_app, list_elem_of_singleton.
        split; [intros [H | ->]; [exact H|contradiction]|auto].
    - apply Forall_forall. auto.
    - split; [|reflexivity]. simpl.
      apply Forall2_same_length_lookup. split; [reflexivity|].
      intros i row row0 H1 H2. rewrite H1 in H2. injection H2 as <-.
      intros key _. reflexivity. }
  destruct HI as [Hrows Hcols]. split.
  - rewrite (Forall2_length _ _ _ Hrows). simpl. apply length_fmap.
  - intros index key Hkey. unfold cell_at. rewrite (Hcols key Hkey).
    destruct (has_column (CNPJProcessor.frame_of sh) key); [|reflexivity].
    destruct (rows (df s') !! index) as [row|] eqn:Hrow.
    + destruct (Forall2_lookup_l _ _ _ _ _ Hrows Hrow) as (row0 & -> & Hsame).
      simpl. rewrite (Hsame key Hkey). reflexivity.
    + assert (Hnone : rows (CNPJProcessor.frame_of sh) !! index = None).
      { apply lookup_ge_None. rewrite <- (Forall2_length _ _ _ Hrows).
        apply lookup_ge_None, Hrow. }
      rewrite Hnone. reflexivity.
Qed.

End Untouched.

Lemma end_to_end_leaves_cnpj_column :
  let s' := snd (CNPJProcessor.run Binary64.ops Scenario.beta_service
                   "/dados/empresas.xlsx" ["nome"] Scenario.end_to_end) in
  length (rows (df s')) = length (lines Scenario.three_rows)
  /\ forall index key, key ∉ ["nome"] ->
       cell_at (df s') index key
       = cell_at (CNPJProcessor.frame_of Scenario.three_rows) index key.
Proof.
  apply (run_touches_selected_columns_only Binary64.ops Scenario.beta_service
           "/dados/empresas.xlsx" ["nome"] Scenario.three_rows Scenario.end_to_end
           (fst (CNPJProcessor.run Binary64.ops Scenario.beta_service
                   "/dados/empresas.xlsx" ["nome"] Scenario.end_to_end))).
  - reflexivity.
  - apply surjective_pairing.
Defined.

(** ** The requests of a run *)

Section Requests.

Context (A : FloatOps) (E : Oracle).

Lemma handler_keeps_requests e s r s' :
  CNPJProcessor.row_handler e s = (r, s') -> requests s' = requests s.
Proof.
  intros Hrun.
  assert (H : preserves (fun st => requests st = requests s) (CNPJProcessor.row_handler e))
    by (apply preserves_row_handler; blind).
  exact (H s r s' eq_refl Hrun).
Qed.

Lemma row_body_requests fields hdr index row s r s' :
  CNPJProcessor.row_body E fields hdr index row s = (r, s') ->
  requests s' = requests s \/ requests s' = (requests s ++ [row_url row])%list.
Proof.
  intros Hrun. unfold CNPJProcessor.row_body in Hrun.
  destruct (decide ("CNPJ" ∈ hdr)) as [Hcol|Hcol].
  - rewrite (bind_ok _ _ _ _ _ (row_getitem_present hdr row "CNPJ" s Hcol)) in Hrun.
    unfold row_url.
    set (cnpj := CNPJProcessor.canonical (default XNaN (row !! "CNPJ"))) in *.
    rewrite (bind_ok _ _ s tt (set_local_cnpj (Some cnpj) s) eq_refl) in Hrun.
    destruct (get_returns E cnpj (set_local_cnpj (Some cnpj) s)) as (cached & s1 & Hget).
    rewrite (bind_ok _ _ _ _ _ Hget) in Hrun.
    destruct (get_keeps E _ _ _ _ Hget) as (Hreq1 & _ & _). simpl in Hreq1.
    destruct (truthy cached) eqn:Hcached; simpl in Hrun.
    + left. rewrite (bind_ok _ _ s1 cached s1 eq_refl) in Hrun. rewrite Hcached in Hrun.
      destruct (merge_keeps_requests_and_cache E _ _ _ _ _ _ _ Hrun) as [Hreq _].
      congruence.
    + right.
      destruct (fetch_returns E cnpj s1) as (fetched & s2 & Hfetch & Hreq2).
      unfold bind at 1 in Hrun. rewrite (bind_ok _ _ _ _ _ Hfetch) in Hrun.
      destruct (truthy fetched) eqn:Hfetched.
      * destruct (CNPJCache.set E CNPJProcessor.cache_file cnpj fetched s2)
          as [r3 s3] eqn:Hset.
        destruct (set_effect E _ _ _ _ _ _ Hset) as (_ & Hreq3 & _).
        destruct r3 as [[]|e].
        -- rewrite (bind_ok _ _ _ _ _ Hset) in Hrun. unfold ret at 1 in Hrun.
           rewrite Hfetched in Hrun.
           destruct (merge_keeps_requests_and_cache E _ _ _ _ _ _ _ Hrun) as [Hreq _].
           congruence.
        -- rewrite (bind_raise _ _ _ _ _ Hset) in Hrun. injection Hrun as <- <-.
           congruence.
      * rewrite (bind_ok _ _ s2 tt s2 eq_refl) in Hrun. unfold ret at 1 in Hrun.
        rewrite Hfetched in Hrun. injection Hrun as <- <-. simpl. congruence.
  - left. unfold bind at 1, CNPJProcessor.row_getitem in Hrun.
    rewrite bool_decide_eq_false_2 in Hrun by assumption.
    injection Hrun as <- <-. reflexivity.
Qed.

Lemma row_requests fields hdr index row s r s' :
  try_except (CNPJProcessor.row_body E fields hdr index row)
    is_Exception CNPJProcessor.row_handler s = (r, s') ->
  requests s' = requests s \/ requests s' = (requests s ++ [row_url row])%list.
Proof.
  unfold try_except.
  destruct (CNPJProcessor.row_body E fields hdr index row s) as [[u|e] s1] eqn:Hrow.
  - intros [= <- <-]. exact (row_body_requests _ _ _ _ _ _ _ Hrow).
  - simpl. intros Hh. rewrite (handler_keeps_requests _ _ _ _ Hh).
    exact (row_body_requests _ _ _ _ _ _ _ Hrow).
Qed.

Lemma iterrows_requests fields hdr total pending : forall index s r s',
  CNPJProcessor.iterrows A E fields hdr total index pending s = (r, s') ->
  exists sent,
    requests s' = (requests s ++ sent)%list
    /\ sent `sublist_of` (row_url <$> pending).
Proof.
  induction pending as [|row rest IH]; intros index s r s' Hrun.
  - injection Hrun as <- <-. exists []. rewrite app_nil_r. split; [reflexivity|constructor].
  - rewrite iterrows_cons in Hrun.
    destruct (try_except _ _ _ s) as [[[]|e] s1] eqn:Hrow.
    + apply row_requests in Hrow.
      assert (Htail : exists sent,
                 requests s' = (requests s1 ++ sent)%list
                 /\ sent `sublist_of` (row_url <$> rest)).
      { destruct total as [|total'].
        - injection Hrun as <- <-. exists []. rewrite app_nil_r.
          split; [reflexivity|apply sublist_nil_l].
        - apply IH in Hrun. exact Hrun. }
      destruct Htail as (sent & Hsent & Hsub).
      destruct Hrow as [Hreq|Hreq]; rewrite Hreq in Hsent.
      * exists sent. split; [exact Hsent|]. simpl. apply sublist_cons, Hsub.
      * exists (row_url row :: sent). split.
        -- rewrite Hsent, <- app_assoc. reflexivity.
        -- simpl. apply sublist_skip, Hsub.
    + injection Hrun as <- <-. apply row_requests in Hrow.
      destruct Hrow as [Hreq|Hreq].
      * exists []. rewrite app_nil_r. split; [exact Hreq|apply sublist_nil_l].
      * exists [row_url row]. split; [exact Hreq|].
        simpl. apply sublist_skip, sublist_nil_l.
Qed.

(** X6.  A run asks the service at most once for each row, in the order of
    the rows and at the lookup URL of the row's canonical identifier: the
    requests it adds are a subsequence of the URLs of the rows.  Nothing is
    asked twice for a row and nothing is asked that no row names. *)
Theorem run_requests_follow_rows (path : string) (fields : list string)
    (sh : sheet) (s : state) (r : result unit) (s' : state) :
  files s !! path = Some (Workbook sh) ->
  CNPJProcessor.run A E path fields s = (r, s') ->
  exists sent,
    requests s' = (requests s ++ sent)%list
    /\ sent `sublist_of` (row_url <$> lines sh)
    /\ (length sent <= length (lines sh))%nat.
Proof.
  intros Hfile. rewrite run_unfold, Hfile. cbv zeta.
  destruct (CNPJProcessor.iterrows _ _ _ _ _ _ _ _) as [r1 s1] eqn:Hloop.
  destruct (iterrows_requests _ _ _ _ _ _ _ _ Hloop) as (sent & Hsent & Hsub).
  simpl in Hsent.
  assert (Hlen : (length sent <= length (lines sh))%nat).
  { apply sublist_length in Hsub. rewrite length_fmap in Hsub. exact Hsub. }
  intros Hrun. exists sent.
  assert (Hreq : requests s' = requests s1).
  { destruct r1 as [u|e]; [|injection Hrun as <- <-; reflexivity].
    destruct (writable E _); [|injection Hrun as <- <-; reflexivity].
    destruct (CNPJProcessor.savable (df s1)); injection Hrun as <- <-; reflexivity. }
  rewrite Hreq. auto.
Qed.

End Requests.

Lemma end_to_end_requests_follow_rows :
  let s' := snd (CNPJProcessor.run Binary64.ops Scenario.beta_service
                   "/dados/empresas.xlsx" ["nome"] Scenario.end_to_end) in
  exists sent,
    requests s' = (requests Scenario.end_to_end ++ sent)%list
    /\ sent `sublist_of` (row_url <$> lines Scenario.three_rows)
    /\ (length sent <= length (lines Scenario.three_rows))%nat.
Proof.
  apply (run_requests_follow_rows Binary64.ops Scenario.beta_service
           "/dados/empresas.xlsx" ["nome"] Scenario.three_rows Scenario.end_to_end
           (fst (CNPJProcessor.run Binary64.ops Scenario.beta_service
                   "/dados/empresas.xlsx" ["nome"] Scenario.end_to_end))).
  - reflexivity.
  - apply surjective_pairing.
Defined.

(** ** A path without the extension *)

Lemma output_path_without_xlsx path :
  Py.find path ".xlsx" = None -> CNPJProcessor.output_path path = path.
Proof.
  unfold CNPJProcessor.output_path, Py.replace.
  induction path as [|c path IH]; [reflexivity|].
  rewrite find_cons, replace_from_cons.
  destruct (String.prefix ".xlsx" (String c path)); [discriminate|].
  intros Hfind. f_equal. apply IH.
  destruct (Py.find path ".xlsx"); [discriminate|reflexivity].
Qed.

Section Overwrite.

Context (A : FloatOps) (E : Oracle).

(** X7.  The output path is the input path with its [.xlsx] replaced; a
    path that does not hold [.xlsx], an extension in capitals for one, is
    left as it is, and a run that finishes then writes over the workbook
    it has read. *)
Theorem run_overwrites_input_without_extension (path : string) (fields : list string)
    (s : state) (r : result unit) (s' : state) :
  Py.find path ".xlsx" = None ->
  CNPJProcessor.run A E path fields s = (r, s') ->
  last (signals s') = Some process_finished ->
  CNPJProcessor.output_path path = path
  /\ files s' !! path = Some (Workbook (CNPJProcessor.sheet_of (df s'))).
Proof.
  intros Hfind Hrun Hlast.
  destruct (run_finished A E _ _ _ _ _ Hrun Hlast) as (sh & s1 & u & _ & _ & _ & ->).
  rewrite (output_path_without_xlsx path Hfind).
  split; [reflexivity|]. simpl. apply lookup_insert_eq.
Qed.

End Overwrite.

Lemma run_overwrites_capital_extension :
  let s := Scenario.with_file "/dados/PLAN.XLSX" (Workbook Scenario.three_rows) in
  let s' := snd (CNPJProcessor.run Binary64.ops Scenario.beta_service
                   "/dados/PLAN.XLSX" ["nome"] s) in
  CNPJProcessor.output_path "/dados/PLAN.XLSX" = "/dados/PLAN.XLSX"
  /\ files s' !! "/dados/PLAN.XLSX" = Some (Workbook (CNPJProcessor.sheet_of (df s'))).
Proof.
  apply (run_overwrites_input_without_extension Binary64.ops Scenario.beta_service
           "/dados/PLAN.XLSX" ["nome"]
           (Scenario.with_file "/dados/PLAN.XLSX" (Workbook Scenario.three_rows))
           (fst (CNPJProcessor.run Binary64.ops Scenario.beta_service
                   "/dados/PLAN.XLSX" ["nome"]
                   (Scenario.with_file "/dados/PLAN.XLSX" (Workbook Scenario.three_rows))))).
  - vm_compute. reflexivity.
  - apply surjective_pairing.
  - vm_compute. reflexivity.
Defined.

(** ** A service that does not answer *)

Lemma sheet_of_frame_of sh : CNPJProcessor.sheet_of (CNPJProcessor.frame_of sh) = sh.
Proof.
  destruct sh as [hdr body]. unfold CNPJProcessor.sheet_of, CNPJProcessor.frame_of. simpl.
  f_equal. rewrite <- list_fmap_compose.
  rewrite <- (list_fmap_id body) at 2. apply list_fmap_ext.
  intros _ row _. apply map_eq. intros key. simpl.
  rewrite lookup_omap, lookup_fmap. destruct (row !! key); reflexivity.
Qed.

Lemma savable_frame_of sh : CNPJProcessor.savable (CNPJProcessor.frame_of sh) = true.
Proof.
  unfold CNPJProcessor.savable. apply bool_decide_eq_true_2. simpl.
  apply Forall_fmap, Forall_forall. intros row _ key c. simpl.
  rewrite lookup_fmap. destruct (row !! key); simpl; [|discriminate].
  intros [= <-]. eexists. reflexivity.
Qed.

Section Unanswered.

Context (A : FloatOps) (E : Oracle).

Hypothesis silent : forall k url, unanswered (network E k url) = true.

Lemma fetch_unanswered cnpj s :
  exists v s2 pre,
    CNPJProcessor.fetch_cnpj_data E cnpj s = (Ok v, s2)
    /\ truthy v = false
    /\ cache s2 = cache s /\ df s2 = df s /\ files s2 = files s
    /\ signals s2 = signals s
    /\ log s2 = (log s ++ pre)%list.
Proof.
  pose proof (silent (length (requests s)) (CNPJProcessor.url_of cnpj)) as Hsilent.
  unfold CNPJProcessor.fetch_cnpj_data, try_except, bind,
    CNPJProcessor.requests_get, CNPJProcessor.raise_for_status.
  destruct (network E (length (requests s)) (CNPJProcessor.url_of cnpj))
    as [why|status_code b]; simpl in *.
  - eexists _, _, [_]. repeat split; reflexivity.
  - destruct ((400 <=? status_code) && (status_code <? 600))%bool; simpl in *.
    + eexists _, _, [_]. repeat split; reflexivity.
    + destruct b as [|v]; simpl in *.
      * eexists _, _, [_]. repeat split; reflexivity.
      * exists v. eexists _, []. rewrite app_nil_r.
        repeat split; try reflexivity. apply negb_true_iff, Hsilent.
Qed.

Lemma row_unanswered fields hdr index row s :
  "CNPJ" ∈ hdr -> cache s = ∅ ->
  exists s1 pre,
    try_except (CNPJProcessor.row_body E fields hdr index row)
      is_Exception CNPJProcessor.row_handler s = (Ok tt, s1)
    /\ cache s1 = ∅ /\ df s1 = df s /\ files s1 = files s
    /\ signals s1 = signals s
    /\ log s1 = (log s ++ pre ++ [warning_of row])%list.
Proof.
  intros Hcol Hempty.
  unfold try_except, CNPJProcessor.row_body.
  rewrite (bind_ok _ _ _ _ _ (row_getitem_present hdr row "CNPJ" s Hcol)).
  set (cnpj := CNPJProcessor.canonical (default XNaN (row !! "CNPJ"))).
  rewrite (bind_ok _ _ s tt (set_local_cnpj (Some cnpj) s) eq_refl).
  assert (Hmiss : cache (set_local_cnpj (Some cnpj) s) !! cnpj = None)
    by (simpl; rewrite Hempty; apply lookup_empty).
  rewrite (bind_ok _ _ _ _ _ (get_miss E cnpj _ Hmiss)).
  simpl negb. cbv iota.
  destruct (fetch_unanswered cnpj (set_local_cnpj (Some cnpj) s))
    as (v & s2 & pre & Hfetch & Hfalsy & Hcache & Hdf & Hfiles & Hsig & Hlog).
  unfold bind at 1. unfold bind at 1. rewrite Hfetch, Hfalsy.
  unfold bind, ret, logging, modify. rewrite Hfalsy.
  eexists _, pre. split; [reflexivity|]. simpl in *.
  rewrite Hcache, Hdf, Hfiles, Hsig, Hlog, <- app_assoc.
  repeat split; first [assumption | reflexivity].
Qed.

Lemma iterrows_unanswered fields hdr total pending :
  "CNPJ" ∈ hdr -> (length pending <= total)%nat ->
  forall index s, cache s = ∅ ->
  exists s' added,
    CNPJProcessor.iterrows A E fields hdr total index pending s = (Ok tt, s')
    /\ cache s' = ∅ /\ df s' = df s /\ files s' = files s
    /\ log s' = (log s ++ added)%list
    /\ Forall (fun row => warning_of row ∈ added) pending.
Proof.
  intros Hcol. induction pending as [|row rest IH]; intros Hlen index s Hempty.
  - exists s, []. rewrite app_nil_r.
    split; [reflexivity|]. split; [assumption|].
    split; [reflexivity|]. split; [reflexivity|]. split; [reflexivity|constructor].
  - rewrite iterrows_cons.
    destruct (row_unanswered fields hdr index row s Hcol Hempty)
      as (s1 & pre & -> & Hcache1 & Hdf1 & Hfiles1 & _ & Hlog1).
    destruct total as [|total']; [simpl in Hlen; lia|].
    assert (Hlen' : (length rest <= S total')%nat) by (simpl in Hlen; lia).
    destruct (IH Hlen' (S index)
                (set_signals
                   (signals s1
                    ++ [progress_updated (CNPJProcessor.percent A index (S total'))]) s1)
                Hcache1)
      as (s' & added & Hrun & Hcache & Hdf & Hfiles & Hlog & Hall).
    exists s', (pre ++ [warning_of row] ++ added)%list.
    split; [exact Hrun|]. simpl in *.
    split; [exact Hcache|]. split; [congruence|]. split; [congruence|].
    split.
    + rewrite Hlog, Hlog1, <- !app_assoc. reflexivity.
    + constructor.
      * apply elem_of_app. right. apply list_elem_of_here.
      * eapply Forall_impl; [exact Hall|].
        intros row' Hin. simpl in Hin.
        apply elem_of_app. right. apply list_elem_of_further, Hin.
Qed.

(** X8.  When nothing is cached and the service brings back nothing to
    use, whether it fails or answers with an empty body, a run over a
    sheet that has the column [CNPJ] still goes through: the workbook it
    writes is the one it has read, cell for cell, no entry is created in
    the cache, each row has left its warning in the log, and the run ends
    with [process_finished]. *)
Theorem unanswered_run_copies_input (path : string) (fields : list string)
    (sh : sheet) (s : state) (r : result unit) (s' : state) :
  files s !! path = Some (Workbook sh) ->
  "CNPJ" ∈ header sh ->
  cache s = ∅ ->
  writable E (CNPJProcessor.output_path path) = true ->
  CNPJProcessor.run A E path fields s = (r, s') ->
  files s' !! CNPJProcessor.output_path path = Some (Workbook sh)
  /\ last (signals s') = Some process_finished
  /\ cache s' = ∅
  /\ Forall (fun row => warning_of row ∈ log s') (lines sh).
Proof.
  intros Hfile Hcol Hempty Hw. rewrite run_unfold, Hfile. cbv zeta.
  destruct (iterrows_unanswered fields (header sh) (length (lines sh)) (lines sh)
              Hcol (Nat.le_refl _) O
              (set_df (CNPJProcessor.frame_of sh) (set_local_cnpj None s)) Hempty)
    as (s1 & added & -> & Hcache & Hdf & Hfiles & Hlog & Hall).
  simpl in Hdf, Hlog. rewrite Hw, Hdf, savable_frame_of.
  intros [= <- <-]. simpl. rewrite Hdf, sheet_of_frame_of, lookup_insert_eq.
  split; [reflexivity|]. split; [apply last_snoc|]. split; [exact Hcache|].
  eapply Forall_impl; [exact Hall|].
  intros row Hin. simpl in Hin. rewrite Hlog, !elem_of_app. auto.
Qed.

End Unanswered.

Lemma offline_run_copies_input :
  let s := Scenario.with_file "/dados/empresas.xlsx" (Workbook Scenario.three_rows) in
  let s' := snd (CNPJProcessor.run Binary64.ops Scenario.offline
                   "/dados/empresas.xlsx" ["nome"] s) in
  files s' !! CNPJProcessor.output_path "/dados/empresas.xlsx"
  = Some (Workbook Scenario.three_rows)
  /\ last (signals s') = Some process_finished
  /\ cache s' = ∅
  /\ Forall (fun row => warning_of row ∈ log s') (lines Scenario.three_rows).
Proof.
  apply (unanswered_run_copies_input Binary64.ops Scenario.offline
           (fun _ _ => eq_refl) "/dados/empresas.xlsx" ["nome"] Scenario.three_rows
           (Scenario.with_file "/dados/empresas.xlsx" (Workbook Scenario.three_rows))
           (fst (CNPJProcessor.run Binary64.ops Scenario.offline
                   "/dados/empresas.xlsx" ["nome"]
                   (Scenario.with_file "/dados/empresas.xlsx"
                      (Workbook Scenario.three_rows))))).
  - reflexivity.
  - apply list_elem_of_here.
  - reflexivity.
  - reflexivity.
  - apply surjective_pairing.
Defined.

(** ** The window *)

Section Window.

Import MainWindow.

Context (A : FloatOps) (E : Oracle).

(** Whatever the run does, its signals are percentages and then one
    terminal signal. *)
Lemma run_signals_shape path fields s :
  exists s' ps final,
    CNPJProcessor.run A E path fields s = (Ok tt, s')
    /\ signals s' = (signals s ++ map progress_updated ps ++ [final])%list
    /\ (final = process_finished \/ exists message, final = error_occurred message).
Proof.
  rewrite run_unfold. cbv zeta.
  destruct (files s !! path) as [[| |entries|sh]|];
    try (eexists _, [], _; split; [reflexivity|]; split; [reflexivity|]; right; eauto).
  destruct (CNPJProcessor.iterrows A E fields (header sh) (length (lines sh)) 0
              (lines sh) (set_df (CNPJProcessor.frame_of sh) (set_local_cnpj None s)))
    as [r1 s1] eqn:Hloop.
  destruct (iterrows_signals A E _ _ _ _ _ _ _ _ (Nat.le_refl _) Hloop)
    as (k & _ & Hsig & _).
  simpl in Hsig. rewrite <- map_map in Hsig.
  destruct r1 as [u|e];
    [destruct (writable E _); [destruct (CNPJProcessor.savable (df s1))|]|];
    eexists _, _, _; (split; [reflexivity|]);
    (split; [simpl; rewrite Hsig, <- app_assoc; reflexivity|]); eauto.
Qed.

Lemma worker_signals_shape path fields s :
  exists s' ps final,
    worker A E path fields s = (Ok tt, s')
    /\ signals s' = (signals s ++ map progress_updated ps ++ [final])%list
    /\ (final = process_finished \/ exists message, final = error_occurred message).
Proof.
  destruct path as [file|]; [apply run_signals_shape|].
  unfold worker, bind, modify, logging, emit. cbv beta iota zeta.
  eexists _, [], _. split; [reflexivity|]. split; [reflexivity|]. right. eauto.
Qed.

(** Building the processor loads the cache: it touches nothing else, and
    fails only on a cache file that does not decode. *)
Lemma new_processor_cases s :
  (exists loaded, new_processor s = (Ok tt, set_cache loaded s))
  \/ (exists e, new_processor s = (Raise e, s) /\ exc e = UnicodeDecodeError).
Proof.
  unfold new_processor, CNPJCache.init, CNPJCache.load_cache, CNPJCache.open_json,
    try_except, bind, get_state.
  destruct (files s !! CNPJProcessor.cache_file) as [[| |entries|sh]|]; simpl; eauto.
Qed.

(** Progress touches the bar and nothing else. *)
Lemma deliver_progress ps w :
  let w' := fold_left deliver (map progress_updated ps) w in
  file_path w' = file_path w
  /\ field_checkboxes w' = field_checkboxes w
  /\ status_label w' = status_label w
  /\ process_button w' = process_button w
  /\ file_button w' = file_button w.
Proof.
  revert w. induction ps as [|p ps IH]; intros w; simpl; [auto|].
  destruct (IH (update_progress p w)) as (H1 & H2 & H3 & H4 & H5).
  rewrite H1, H2, H3, H4, H5. unfold update_progress.
  destruct (_ && _)%bool; auto.
Qed.

Lemma deliver_all ps final w :
  final = process_finished \/ (exists message, final = error_occurred message) ->
  let w' := fold_left deliver (map progress_updated ps ++ [final]) w in
  file_path w' = file_path w
  /\ field_checkboxes w' = field_checkboxes w
  /\ process_button w' = true
  /\ file_button w' = true
  /\ ((final = process_finished /\ status_label w' = "Processamento concluído!")
      \/ exists message, final = error_occurred message
                         /\ status_label w' = "Erro: " ++ message).
Proof.
  intros Hfinal. simpl. rewrite fold_left_app. simpl.
  destruct (deliver_progress ps w) as (H1 & H2 & _).
  destruct Hfinal as [->|[message ->]]; simpl; eauto 10.
Qed.


End Window.


Section WindowSession.

Import MainWindow.

Context (A : FloatOps) (E : Oracle).

Lemma toggles_keep positions w :
  let w' := foldr toggle w positions in
  map fst (field_checkboxes w') = map fst (field_checkboxes w)
  /\ file_path w' = file_path w
  /\ process_button w' = process_button w.
Proof.
  induction positions as [|position rest IH]; simpl; [auto|].
  destruct IH as (H1 & H2 & H3). rewrite <- H1, <- H2, <- H3.
  split; [|auto]. simpl.
  generalize (field_checkboxes (foldr toggle w rest)). clear. intros boxes.
  revert position. induction boxes as [|box boxes IH]; intros [|position]; simpl;
    try reflexivity.
  f_equal. apply IH.
Qed.

Lemma selected_among_boxes w :
  Forall (fun key => key ∈ map fst (field_checkboxes w)) (selected_fields w).
Proof.
  unfold selected_fields. apply Forall_forall. intros key Hkey.
  apply list_elem_of_fmap in Hkey. destruct Hkey as (box & -> & Hbox).
  apply list_elem_of_filter in Hbox. destruct Hbox as [_ Hbox].
  apply list_elem_of_fmap. eauto.
Qed.

Lemma select_file_workbook chosen w s sh :
  chosen <> "" -> files s !! chosen = Some (Workbook sh) ->
  select_file chosen w s
  = (Ok (set_process_button true
           (set_field_checkboxes (map (fun field => (field, false)) (header sh))
              (set_status_label ("Arquivo selecionado: " ++ chosen)
                 (set_file_path (Some chosen) w)))), s).
Proof.
  intros Hchosen Hfile. unfold select_file.
  rewrite (proj2 (String.eqb_neq chosen "") Hchosen). simpl.
  unfold load_fields, try_except, read_selected, bind. simpl.
  unfold CNPJProcessor.read_excel, bind, get_state. rewrite Hfile. reflexivity.
Qed.

(** X10.  From the file dialog to the end of the run the window cannot make
    the worker add a column.  Choosing a workbook offers its columns,
    unchecked, and enables the process button; whichever boxes the user
    then clicks, the fields handed to the worker are columns of the sheet,
    so the frame of the run that follows has the columns of the sheet and
    no other, and so has the workbook written by a run that finishes. *)
Theorem session_never_adds_a_column (chosen : string) (w : window) (s : state)
    (sh : sheet) :
  chosen <> "" ->
  files s !! chosen = Some (Workbook sh) ->
  exists w1,
    select_file chosen w s = (Ok w1, s)
    /\ field_checkboxes w1 = map (fun field => (field, false)) (header sh)
    /\ process_button w1 = true
    /\ forall positions w3 s3,
         selected_fields (foldr toggle w1 positions) <> [] ->
         click_process A E (foldr toggle w1 positions) s = (Ok w3, s3) ->
         Forall (fun key => key ∈ header sh) (selected_fields (foldr toggle w1 positions))
         /\ columns (df s3) = header sh
         /\ (last (signals s3) = Some process_finished ->
             saved_header s3 (CNPJProcessor.output_path chosen) = Some (header sh)).
Proof.
  intros Hchosen Hfile. eexists.
  split; [apply (select_file_workbook chosen w s sh Hchosen Hfile)|].
  split; [reflexivity|]. split; [reflexivity|].
  intros positions w3 s3.
  set (w1 := set_process_button true _).
  destruct (toggles_keep positions w1) as (Hboxes & Hpath & Hbutton).
  set (w2 := foldr toggle w1 positions) in *. simpl in Hboxes, Hpath, Hbutton.
  pose proof (selected_among_boxes w2) as Hsel.
  rewrite Hboxes, map_map in Hsel. simpl in Hsel. rewrite map_id in Hsel.
  intros Hne. unfold click_process, start_processing. rewrite Hbutton.
  destruct (selected_fields w2) as [|field rest] eqn:Hfields; [contradiction|].
  destruct (new_processor_cases s) as [[loaded Hnew]|(e & Hnew & _)];
    [|rewrite (bind_raise _ _ _ _ _ Hnew); discriminate].
  rewrite (bind_ok _ _ _ _ _ Hnew). rewrite Hpath. unfold worker.
  destruct (CNPJProcessor.run A E chosen (field :: rest) (set_cache loaded s))
    as [r1 s1] eqn:Hrun.
  assert (Hcols : columns (df s1) = header sh).
  { refine (run_preserves A E (fun st => columns (df st) = header sh)
              (fun key => key ∈ header sh)
              _ _ _ _ _ _ _ _ chosen (field :: rest) sh (set_cache loaded s) r1 s1
              Hsel Hfile eq_refl Hrun);
      try (intros v st Hst; exact Hst).
    intros index key v st Hkey Hst. simpl. unfold has_column. rewrite Hst.
    rewrite bool_decide_eq_true_2 by exact Hkey. reflexivity. }
  unfold bind. rewrite Hrun. destruct r1 as [[]|e]; [|discriminate].
  unfold ret. intros [= _ <-].
  split; [exact Hsel|]. split; [exact Hcols|].
  intros Hlast.
  destruct (run_finished A E _ _ _ _ _ Hrun Hlast) as (sh0 & s0 & u & _ & _ & _ & ->).
  unfold saved_header. simpl. rewrite lookup_insert_eq. simpl.
  simpl in Hcols. rewrite Hcols. reflexivity.
Qed.

Lemma run_without_workbook path fields s :
  (forall sh, files s !! path <> Some (Workbook sh)) ->
  exists e, CNPJProcessor.run A E path fields s = (Ok tt, failed e (set_local_cnpj None s)).
Proof.
  intros Hno. rewrite run_unfold. cbv zeta.
  destruct (files s !! path) as [[| |entries|sh]|]; eauto.
  destruct (Hno sh eq_refl).
Qed.

(** X11.  An answer of the file dialog that names no workbook, the empty
    path of a cancelled dialog included, still replaces the chosen file,
    while the check boxes and the process button stay as they were.  A
    click on the process button then does not work on the file chosen
    before: the run fails at once, no file is written, and the status line
    shows the error. *)
Theorem stale_selection_fails (chosen : string) (w : window) (s : state) :
  (forall sh, files s !! chosen <> Some (Workbook sh)) ->
  exists w1 s1,
    select_file chosen w s = (Ok w1, s1)
    /\ file_path w1 = Some chosen
    /\ field_checkboxes w1 = field_checkboxes w
    /\ process_button w1 = process_button w
    /\ files s1 = files s
    /\ forall w2 s2,
         process_button w = true ->
         selected_fields w <> [] ->
         click_process A E w1 s1 = (Ok w2, s2) ->
         (exists message,
            status_label w2 = "Erro: Erro durante o processamento: " ++ message)
         /\ files s2 = files s
         /\ process_button w2 = true /\ file_button w2 = true.
Proof.
  intros Hno.
  assert (Hselect : exists w1 s1,
    select_file chosen w s = (Ok w1, s1)
    /\ file_path w1 = Some chosen
    /\ field_checkboxes w1 = field_checkboxes w
    /\ process_button w1 = process_button w
    /\ files s1 = files s).
  { unfold select_file. destruct (String.eqb chosen ""); simpl.
    - eexists _, _. split; [reflexivity|]. auto.
    - unfold load_fields, try_except, read_selected, bind. simpl.
      unfold CNPJProcessor.read_excel, bind, get_state.
      destruct (files s !! chosen) as [[| |entries|sh]|] eqn:Hfile; simpl;
        try (eexists _, _; split; [reflexivity|]; auto).
      destruct (Hno sh eq_refl). }
  destruct Hselect as (w1 & s1 & Hsel & Hpath & Hboxes & Hbutton & Hfiles).
  exists w1, s1. split; [exact Hsel|]. split; [exact Hpath|].
  split; [exact Hboxes|]. split; [exact Hbutton|]. split; [exact Hfiles|].
  intros w2 s2 Henabled Hne. unfold click_process, start_processing.
  rewrite Hbutton, Henabled. unfold selected_fields in *. rewrite Hboxes.
  destruct (map fst (filter _ (field_checkboxes w))) as [|field rest] eqn:Hfields;
    [contradiction|].
  destruct (new_processor_cases s1) as [[loaded Hnew]|(e & Hnew & _)];
    [|rewrite (bind_raise _ _ _ _ _ Hnew); discriminate].
  rewrite (bind_ok _ _ _ _ _ Hnew). rewrite Hpath. unfold worker.
  destruct (run_without_workbook chosen (field :: rest) (set_cache loaded s1))
    as [e Hrun].
  { intros sh. simpl. rewrite Hfiles. apply Hno. }
  rewrite (bind_ok _ _ _ _ _ Hrun). unfold ret. intros [= <- <-].
  simpl signals. rewrite drop_app_length. simpl.
  split; [eexists; reflexivity|]. auto.
Qed.

End WindowSession.

Lemma session_on_the_example :
  exists w1,
    MainWindow.select_file "/dados/empresas.xlsx" MainWindow.init Scenario.end_to_end
    = (Ok w1, Scenario.end_to_end)
    /\ MainWindow.field_checkboxes w1
       = map (fun field => (field, false)) (header Scenario.three_rows)
    /\ MainWindow.process_button w1 = true
    /\ forall positions w3 s3,
         MainWindow.selected_fields (foldr MainWindow.toggle w1 positions) <> [] ->
         MainWindow.click_process Binary64.ops Scenario.beta_service
           (foldr MainWindow.toggle w1 positions) Scenario.end_to_end = (Ok w3, s3) ->
         Forall (fun key => key ∈ header Scenario.three_rows)
           (MainWindow.selected_fields (foldr MainWindow.toggle w1 positions))
         /\ columns (df s3) = header Scenario.three_rows
         /\ (last (signals s3) = Some process_finished ->
             saved_header s3 (CNPJProcessor.output_path "/dados/empresas.xlsx")
             = Some (header Scenario.three_rows)).
Proof.
  apply (session_never_adds_a_column Binary64.ops Scenario.beta_service
           "/dados/empresas.xlsx" MainWindow.init Scenario.end_to_end Scenario.three_rows).
  - discriminate.
  - reflexivity.
Defined.

Lemma cancelled_dialog_on_the_example :
  exists w1 s1,
    MainWindow.select_file "" Session.nome_checked Scenario.end_to_end = (Ok w1, s1)
    /\ MainWindow.file_path w1 = Some ""
    /\ MainWindow.field_checkboxes w1 = MainWindow.field_checkboxes Session.nome_checked
    /\ MainWindow.process_button w1 = MainWindow.process_button Session.nome_checked
    /\ files s1 = files Scenario.end_to_end
    /\ forall w2 s2,
         MainWindow.process_button Session.nome_checked = true ->
         MainWindow.selected_fields Session.nome_checked <> [] ->
         MainWindow.click_process Binary64.ops Scenario.beta_service w1 s1 = (Ok w2, s2) ->
         (exists message,
            MainWindow.status_label w2 = "Erro: Erro durante o processamento: " ++ message)
         /\ files s2 = files Scenario.end_to_end
         /\ MainWindow.process_button w2 = true /\ MainWindow.file_button w2 = true.
Proof.
  apply (stale_selection_fails Binary64.ops Scenario.beta_service ""
           Session.nome_checked Scenario.end_to_end).
  intros sh. vm_compute. discriminate.
Defined.

(** ** The entries a run writes to the cache *)

Section CacheEntries.

Context (A : FloatOps) (E : Oracle).

Lemma handler_keeps_cache e s r s' :
  CNPJProcessor.row_handler e s = (r, s') -> cache s' = cache s.
Proof.
  intros Hrun.
  assert (H : preserves (fun st => cache st = cache s) (CNPJProcessor.row_handler e))
    by (apply preserves_row_handler; blind).
  exact (H s r s' eq_refl Hrun).
Qed.

Lemma row_body_cache fields hdr index row s r s' :
  CNPJProcessor.row_body E fields hdr index row s = (r, s') ->
  cache s' = cache s
  \/ exists fetched t,
       truthy fetched = true
       /\ cache s'
          = <[CNPJProcessor.canonical (default XNaN (row !! "CNPJ")) := (fetched, t)]>
              (cache s).
Proof.
  intros Hrun. unfold CNPJProcessor.row_body in Hrun.
  destruct (decide ("CNPJ" ∈ hdr)) as [Hcol|Hcol].
  - rewrite (bind_ok _ _ _ _ _ (row_getitem_present hdr row "CNPJ" s Hcol)) in Hrun.
    set (cnpj := CNPJProcessor.canonical (default XNaN (row !! "CNPJ"))) in *.
    rewrite (bind_ok _ _ s tt (set_local_cnpj (Some cnpj) s) eq_refl) in Hrun.
    destruct (get_returns E cnpj (set_local_cnpj (Some cnpj) s)) as (cached & s1 & Hget).
    rewrite (bind_ok _ _ _ _ _ Hget) in Hrun.
    destruct (get_keeps E _ _ _ _ Hget) as (_ & Hcache1 & _). simpl in Hcache1.
    destruct (truthy cached) eqn:Hcached; simpl in Hrun.
    + left. rewrite (bind_ok _ _ s1 cached s1 eq_refl) in Hrun. rewrite Hcached in Hrun.
      destruct (merge_keeps_requests_and_cache E _ _ _ _ _ _ _ Hrun) as [_ Hcache].
      congruence.
    + destruct (fetch_returns E cnpj s1) as (fetched & s2 & Hfetch & _).
      destruct (fetch_keeps E _ _ _ _ Hfetch) as (Hcache2 & _ & _).
      unfold bind at 1 in Hrun. rewrite (bind_ok _ _ _ _ _ Hfetch) in Hrun.
      destruct (truthy fetched) eqn:Hfetched.
      * right. exists fetched, (clock E (ticks s2)). split; [exact Hfetched|].
        destruct (CNPJCache.set E CNPJProcessor.cache_file cnpj fetched s2)
          as [r3 s3] eqn:Hset.
        destruct (set_effect E _ _ _ _ _ _ Hset) as (Hcache3 & _ & _).
        destruct r3 as [[]|e].
        -- rewrite (bind_ok _ _ _ _ _ Hset) in Hrun. unfold ret at 1 in Hrun.
           rewrite Hfetched in Hrun.
           destruct (merge_keeps_requests_and_cache E _ _ _ _ _ _ _ Hrun) as [_ Hcache].
           congruence.
        -- rewrite (bind_raise _ _ _ _ _ Hset) in Hrun. injection Hrun as <- <-.
           congruence.
      * left. rewrite (bind_ok _ _ s2 tt s2 eq_refl) in Hrun. unfold ret at 1 in Hrun.
        rewrite Hfetched in Hrun. injection Hrun as <- <-. simpl. congruence.
  - left. unfold bind at 1, CNPJProcessor.row_getitem in Hrun.
    rewrite bool_decide_eq_false_2 in Hrun by assumption.
    injection Hrun as <- <-. reflexivity.
Qed.

Lemma row_cache fields hdr index row s r s' :
  try_except (CNPJProcessor.row_body E fields hdr index row)
    is_Exception CNPJProcessor.row_handler s = (r, s') ->
  cache s' = cache s
  \/ exists fetched t,
       truthy fetched = true
       /\ cache s'
          = <[CNPJProcessor.canonical (default XNaN (row !! "CNPJ")) := (fetched, t)]>
              (cache s).
Proof.
  unfold try_except.
  destruct (CNPJProcessor.row_body E fields hdr index row s) as [[u|e] s1] eqn:Hrow.
  - intros [= <- <-]. exact (row_body_cache _ _ _ _ _ _ _ Hrow).
  - simpl. intros Hh. rewrite (handler_keeps_cache _ _ _ _ Hh).
    exact (row_body_cache _ _ _ _ _ _ _ Hrow).
Qed.

Lemma iterrows_cache fields hdr total pending : forall index s r s',
  CNPJProcessor.iterrows A E fields hdr total index pending s = (r, s') ->
  forall key,
    cache s' !! key = cache s !! key
    \/ (key ∈ (fun row => CNPJProcessor.canonical (default XNaN (row !! "CNPJ")))
               <$> pending
        /\ exists data t, cache s' !! key = Some (data, t) /\ truthy data = true).
Proof.
  induction pending as [|row rest IH]; intros index s r s' Hrun key.
  - injection Hrun as <- <-. left. reflexivity.
  - rewrite iterrows_cons in Hrun.
    destruct (try_except _ _ _ s) as [[[]|e] s1] eqn:Hrow.
    + apply row_cache in Hrow.
      assert (Htail : cache s' !! key = cache s1 !! key
                \/ (key ∈ (fun row => CNPJProcessor.canonical (default XNaN (row !! "CNPJ")))
                           <$> rest
                    /\ exists data t, cache s' !! key = Some (data, t)
                                      /\ truthy data = true)).
      { destruct total as [|total'].
        - injection Hrun as <- <-. left. reflexivity.
        - exact (IH _ _ _ _ Hrun key). }
      destruct Htail as [Hsame|[Hin Hnew]];
        [|right; split; [simpl; apply list_elem_of_further, Hin|exact Hnew]].
      rewrite Hsame.
      destruct Hrow as [->|(fetched & t & Htruthy & ->)]; [left; reflexivity|].
      destruct (decide (CNPJProcessor.canonical (default XNaN (row !! "CNPJ")) = key))
        as [<-|Hne].
      * right. split; [simpl; apply list_elem_of_here|].
        rewrite lookup_insert_eq. eauto.
      * left. apply lookup_insert_ne, Hne.
    + injection Hrun as <- <-. apply row_cache in Hrow.
      destruct Hrow as [->|(fetched & t & Htruthy & ->)]; [left; reflexivity|].
      destruct (decide (CNPJProcessor.canonical (default XNaN (row !! "CNPJ")) = key))
        as [<-|Hne].
      * right. split; [simpl; apply list_elem_of_here|].
        rewrite lookup_insert_eq. eauto.
      * left. apply lookup_insert_ne, Hne.
Qed.

(** X12.  A run only ever adds to the dictionary of the cache: the entry
    of every identifier is after the run what it was before, unless the
    identifier is the canonical identifier of a row of the sheet and the
    entry now holds a truthy payload.  No entry is deleted, and no empty
    payload and no entry under a foreign key is ever stored. *)
Theorem run_cache_entries (path : string) (fields : list string) (s : state)
    (r : result unit) (s' : state) (key : string) :
  CNPJProcessor.run A E path fields s = (r, s') ->
  cache s' !! key = cache s !! key
  \/ exists sh data t,
       files s !! path = Some (Workbook sh)
       /\ key ∈ (fun row => CNPJProcessor.canonical (default XNaN (row !! "CNPJ")))
                <$> lines sh
       /\ cache s' !! key = Some (data, t)
       /\ truthy data = true.
Proof.
  rewrite run_unfold. cbv zeta.
  destruct (files s !! path) as [[| |entries|sh]|];
    try (intros [= <- <-]; left; reflexivity).
  destruct (CNPJProcessor.iterrows _ _ _ _ _ _ _ _) as [r1 s1] eqn:Hloop.
  pose proof (iterrows_cache _ _ _ _ _ _ _ _ Hloop key) as Hkey. simpl in Hkey.
  intros Hrun.
  assert (Hcache : cache s' = cache s1).
  { destruct r1 as [u|e]; [|injection Hrun as <- <-; reflexivity].
    destruct (writable E _); [|injection Hrun as <- <-; reflexivity].
    destruct (CNPJProcessor.savable (df s1)); injection Hrun as <- <-; reflexivity. }
  rewrite Hcache.
  destruct Hkey as [Hsame|(Hin & data & t & Hentry & Htruthy)]; [left; exact Hsame|].
  right. exists sh, data, t. auto.
Qed.

End CacheEntries.

Lemma end_to_end_cache_entries :
  let s' := snd (CNPJProcessor.run Binary64.ops Scenario.beta_service
                   "/dados/empresas.xlsx" ["nome"] Scenario.end_to_end) in
  cache s' !! "44555666000199" = cache Scenario.end_to_end !! "44555666000199"
  \/ exists sh data t,
       files Scenario.end_to_end !! "/dados/empresas.xlsx" = Some (Workbook sh)
       /\ "44555666000199"
          ∈ (fun row => CNPJProcessor.canonical (default XNaN (row !! "CNPJ"))) <$> lines sh
       /\ cache s' !! "44555666000199" = Some (data, t)
       /\ truthy data = true.
Proof.
  apply (run_cache_entries Binary64.ops Scenario.beta_service "/dados/empresas.xlsx"
           ["nome"] Scenario.end_to_end
           (fst (CNPJProcessor.run Binary64.ops Scenario.beta_service
                   "/dados/empresas.xlsx" ["nome"] Scenario.end_to_end))).
  apply surjective_pairing.
Defined.

(** ** The progress bar *)

Section ProgressBar.

Import MainWindow.

Context (A : FloatOps) (L : FloatLaws A) (E : Oracle).

Lemma deliver_bar values w :
  last values = Some 100 ->
  progress_bar (fold_left deliver (map progress_updated values) w) = 100.
Proof.
  intros Hlast. apply last_Some in Hlast. destruct Hlast as [front ->].
  rewrite map_app, fold_left_app. reflexivity.
Qed.

(** The signals of a run that has finished, in full. *)
Lemma run_finished_signals path fields sh s r s' :
  files s !! path = Some (Workbook sh) ->
  CNPJProcessor.run A E path fields s = (r, s') ->
  last (signals s') = Some process_finished ->
  signals s'
  = (signals s
     ++ map progress_updated (percentages A (length (lines sh)) (length (lines sh)))
     ++ [process_finished])%list.
Proof.
  intros Hfile Hrun Hlast.
  destruct (run_finished A E _ _ _ _ _ Hrun Hlast) as (sh0 & s1 & u & Hfile0 & Hloop & _ & ->).
  rewrite Hfile in Hfile0. injection Hfile0 as <-.
  destruct (iterrows_signals A E _ _ _ _ _ _ _ _ (Nat.le_refl _) Hloop)
    as (k & _ & Hsig & Hall).
  rewrite (Hall u eq_refl) in Hsig. simpl in Hsig. simpl.
  rewrite Hsig, <- app_assoc. unfold percentages. rewrite map_map. reflexivity.
Qed.


End ProgressBar.


(** ** Merging a payload into a row *)

Lemma has_column_put_other d index key v key' :
  key' <> key -> has_column (at_put d index key v) key' = has_column d key'.
Proof.
  intros Hne. unfold has_column at 1. simpl. unfold has_column at 2.
  apply bool_decide_ext. destruct (has_column d key); [reflexivity|].
  rewrite elem_of_app, list_elem_of_singleton.
  split; [intros [H | H]; [exact H|contradiction]|auto].
Qed.

Lemma cell_at_put_other_key d index key v i key' :
  key' <> key -> cell_at (at_put d index key v) i key' = cell_at d i key'.
Proof.
  intros Hne. unfold cell_at. rewrite has_column_put_other by assumption.
  destruct (has_column d key'); [|reflexivity]. simpl.
  destruct (decide (i = index)) as [->|Hi].
  - rewrite list_lookup_alter_eq. destruct (rows d !! index); [|reflexivity]. simpl.
    rewrite lookup_insert_ne by congruence. reflexivity.
  - rewrite list_lookup_alter_ne by congruence. reflexivity.
Qed.

Lemma cell_at_put_other_row d index key v i key' :
  i <> index -> key' ∈ columns d ->
  cell_at (at_put d index key v) i key' = cell_at d i key'.
Proof.
  intros Hi Hcol. destruct (decide (key' = key)) as [->|Hne];
    [|apply cell_at_put_other_key, Hne].
  unfold cell_at, has_column. simpl.
  rewrite (bool_decide_eq_true_2 _ Hcol). unfold has_column.
  rewrite (bool_decide_eq_true_2 _ Hcol), (bool_decide_eq_true_2 _ Hcol).
  rewrite list_lookup_alter_ne by congruence. reflexivity.
Qed.

Lemma cell_at_put_same d index key v :
  (index < length (rows d))%nat ->
  cell_at (at_put d index key v) index key = Some (Written v).
Proof.
  intros Hindex. unfold cell_at.
  assert (Hcol : has_column (at_put d index key v) key = true).
  { unfold has_column. simpl. apply bool_decide_eq_true_2.
    unfold has_column. destruct (bool_decide_reflect (key ∈ columns d)); [assumption|].
    apply elem_of_app. right. apply list_elem_of_here. }
  rewrite Hcol. simpl. rewrite list_lookup_alter_eq.
  destruct (lookup_lt_is_Some_2 _ _ Hindex) as [row ->]. simpl.
  rewrite lookup_insert_eq. reflexivity.
Qed.

Section Merge.

Context (E : Oracle) (index : nat) (members : list (string * json)).

Hypothesis pandas_accepts : forall d key v, storable E d index key v = true.

Lemma update_fields_object fields : forall s,
  (index < length (rows (df s)))%nat ->
  exists s',
    CNPJProcessor.update_fields E index (JObj members) fields s = (Ok tt, s')
    /\ length (rows (df s')) = length (rows (df s))
    /\ (forall key, key ∈ columns (df s) -> key ∈ columns (df s'))
    /\ (forall key v, key ∈ fields -> assoc key members = Some v ->
          cell_at (df s') index key = Some (Written v))
    /\ (forall key, key ∉ fields \/ assoc key members = None ->
          cell_at (df s') index key = cell_at (df s) index key)
    /\ (forall i key, i <> index -> key ∈ columns (df s) ->
          cell_at (df s') i key = cell_at (df s) i key).
Proof.
  induction fields as [|field rest IH]; intros s Hindex.
  - exists s. split; [reflexivity|]. split; [reflexivity|]. split; [auto|].
    split; [intros key v Hin; inversion Hin|]. auto.
  - simpl CNPJProcessor.update_fields.
    rewrite (bind_ok (CNPJProcessor.py_in field (JObj members)) _ s
               (bool_decide (is_Some (assoc field members))) s eq_refl).
    destruct (assoc field members) as [v0|] eqn:Hassoc.
    + rewrite bool_decide_eq_true_2 by eauto. cbv beta iota.
      set (s1 := set_df (at_put (df s) index field v0) s).
      assert (Hput : (let* value := ret v0 in
                      CNPJProcessor.at_set E index field value) s = (Ok tt, s1)).
      { unfold bind, ret, CNPJProcessor.at_set, bind, get_state.
        rewrite pandas_accepts. reflexivity. }
      rewrite (bind_ok _ _ _ _ _ Hput).
      assert (Hlen1 : length (rows (df s1)) = length (rows (df s)))
        by (simpl; apply length_alter).
      destruct (IH s1 ltac:(rewrite Hlen1; exact Hindex))
        as (s' & Hrun & Hlen & Hcols & Hin & Hout & Hrows).
      exists s'. split; [exact Hrun|]. split; [congruence|].
      assert (Hcols1 : forall key, key ∈ columns (df s) -> key ∈ columns (df s1)).
      { intros key Hkey. simpl. destruct (has_column (df s) field); [exact Hkey|].
        apply elem_of_app. auto. }
      split; [auto|]. split; [|split].
      * intros key v Hkey Hv.
        destruct (decide (key ∈ rest)) as [Hrest|Hrest]; [apply (Hin key v Hrest Hv)|].
        apply elem_of_cons in Hkey. destruct Hkey as [->|Hkey]; [|contradiction].
        rewrite Hout by auto. rewrite Hassoc in Hv. injection Hv as <-.
        apply cell_at_put_same, Hindex.
      * intros key Hkey.
        assert (Hne : key <> field).
        { intros ->. destruct Hkey as [Hkey|Hkey]; [|congruence].
          apply Hkey, list_elem_of_here. }
        rewrite Hout.
        -- apply cell_at_put_other_key, Hne.
        -- destruct Hkey as [Hkey|Hkey]; [left|right; exact Hkey].
           intros Hrest. apply Hkey, list_elem_of_further, Hrest.
      * intros i key Hi Hkey. rewrite Hrows by auto.
        apply cell_at_put_other_row; assumption.
    + rewrite bool_decide_eq_false_2 by (intros [v Hv]; discriminate). cbv beta iota.
      rewrite (bind_ok (ret tt) _ s tt s eq_refl).
      destruct (IH s Hindex) as (s' & Hrun & Hlen & Hcols & Hin & Hout & Hrows).
      exists s'. split; [exact Hrun|]. split; [exact Hlen|]. split; [exact Hcols|].
      split; [|split; [|exact Hrows]].
      * intros key v Hkey Hv. apply elem_of_cons in Hkey.
        destruct Hkey as [->|Hkey]; [congruence|]. apply (Hin key v Hkey Hv).
      * intros key Hkey. apply Hout.
        destruct Hkey as [Hkey|Hkey]; [left|right; exact Hkey].
        intros Hrest. apply Hkey, list_elem_of_further, Hrest.
Qed.

(** X14.  Merging a payload that is a JSON object into a row, pandas
    accepting the values: the loop over the selected fields returns
    normally; every selected field that is a key of the payload has the
    payload's value in the row; every other cell of the row, and every
    cell of every other row, is as it was. *)
Theorem update_fields_merges_payload (fields : list string) (s : state) :
  (index < length (rows (df s)))%nat ->
  exists s',
    CNPJProcessor.update_fields E index (JObj members) fields s = (Ok tt, s')
    /\ (forall key v, key ∈ fields -> assoc key members = Some v ->
          cell_at (df s') index key = Some (Written v))
    /\ (forall key, key ∉ fields \/ assoc key members = None ->
          cell_at (df s') index key = cell_at (df s) index key)
    /\ (forall i key, i <> index -> key ∈ columns (df s) ->
          cell_at (df s') i key = cell_at (df s) i key).
Proof.
  intros Hindex.
  destruct (update_fields_object fields s Hindex)
    as (s' & Hrun & _ & _ & Hin & Hout & Hrows).
  exists s'. auto.
Qed.

End Merge.

Lemma update_fields_merges_acme :
  let s := set_df (CNPJProcessor.frame_of Scenario.three_rows) Scenario.blank in
  exists s',
    CNPJProcessor.update_fields Scenario.offline 0 Scenario.acme ["nome"] s = (Ok tt, s')
    /\ (forall key v, key ∈ ["nome"] -> assoc key [("nome", JStr "Acme")] = Some v ->
          cell_at (df s') 0 key = Some (Written v))
    /\ (forall key, key ∉ ["nome"] \/ assoc key [("nome", JStr "Acme")] = None ->
          cell_at (df s') 0 key = cell_at (df s) 0 key)
    /\ (forall i key, i <> O -> key ∈ columns (df s) ->
          cell_at (df s') i key = cell_at (df s) i key).
Proof.
  apply (update_fields_merges_payload Scenario.offline 0 [("nome", JStr "Acme")]
           (fun _ _ _ => eq_refl) ["nome"]
           (set_df (CNPJProcessor.frame_of Scenario.three_rows) Scenario.blank)).
  simpl. lia.
Defined.
